(** * finance-track: the transaction list view and the category route

    A shallow embedding of

      - [src/app/components/TransactionList.tsx]: the memoised values
        [processedTransactions], [paginatedData], [summary] and the
        handler [exportCSV];
      - [app/api/categories/route.ts]: the [GET] handler.

    Modelling conventions.

      - A JavaScript string is a [string] (its UTF-8 bytes).
      - A [Date] is its time value, an integer number of milliseconds;
        every date string of a transaction is taken to parse to a valid
        time value (no [Invalid Date]).
      - [amount] is an integer; on integers JavaScript's [+], [-] and
        [toString] agree with [Z] (below 2^53).  What is proved of sums
        is proved of such amounts: it says which amounts enter which
        total, not how additions of fractional amounts round.
      - The clock ([new Date()], [Date.now()]) is read as one value [now]
        for the whole evaluation of a render.
      - Functions of the JavaScript runtime and of date-fns that the
        component calls are fields of the class [Host]; the component is
        defined, and every theorem proved, for an arbitrary host. *)

From Stdlib Require Import ZArith List String Ascii Bool Lia.
From Stdlib Require Import Permutation Sorted DecimalString.
Import ListNotations.

Local Open Scope string_scope.
Local Open Scope list_scope.
Local Open Scope Z_scope.

(** ** JavaScript built-ins used by the sources *)

Module Js.

(** [String.prototype.includes]: [needle] occurs in [s]. *)
Fixpoint includes (s needle : string) : bool :=
  match s with
  | EmptyString => (needle =? "")%string
  | String _ s' => String.prefix needle s || includes s' needle
  end.

(** The double quote character. *)
Definition dquote : ascii := ascii_of_nat 34.
Definition dquote_str : string := String dquote EmptyString.

(** [s.replace] with the global double-quote pattern: every double
    quote of [s] is doubled. *)
Fixpoint double_quotes (s : string) : string :=
  match s with
  | EmptyString => EmptyString
  | String c s' =>
      if Ascii.eqb c dquote
      then String dquote (String dquote (double_quotes s'))
      else String c (double_quotes s')
  end.

(** [Array.prototype.join]. *)
Fixpoint join (sep : string) (l : list string) : string :=
  match l with
  | [] => ""
  | [x] => x
  | x :: l' => (x ++ sep ++ join sep l')%string
  end.

(** [Number.prototype.toString] on an integer. *)
Definition number_toString (n : Z) : string :=
  NilZero.string_of_int (Z.to_int n).

(** [Array.prototype.slice(start, end)], negative indices included. *)
Definition slice {A : Type} (l : list A) (start end_ : Z) : list A :=
  let len := Z.of_nat (List.length l) in
  let k := if start <? 0 then Z.max (len + start) 0 else Z.min start len in
  let final := if end_ <? 0 then Z.max (len + end_) 0 else Z.min end_ len in
  firstn (Z.to_nat (final - k)) (skipn (Z.to_nat k) l).

(** [Math.ceil(n / d)] for integers [n] and [d > 0]. *)
Definition ceil_div (n d : Z) : Z :=
  if n mod d =? 0 then n / d else n / d + 1.

(** A [Map] with string keys, in insertion order. *)
Section JsMap.
Context {V : Type}.

Definition map_has (m : list (string * V)) (k : string) : bool :=
  existsb (fun kv => (fst kv =? k)%string) m.

Fixpoint map_get (m : list (string * V)) (k : string) : option V :=
  match m with
  | [] => None
  | (k', v) :: m' => if (k' =? k)%string then Some v else map_get m' k
  end.

(** [set]: an existing key keeps its position, a new key goes last. *)
Fixpoint map_set (m : list (string * V)) (k : string) (v : V)
  : list (string * V) :=
  match m with
  | [] => [(k, v)]
  | (k', v') :: m' =>
      if (k' =? k)%string then (k, v) :: m' else (k', v') :: map_set m' k v
  end.

(** In-place mutation of the object stored under [k], as done through
    the reference returned by [get]; nothing happens without the key. *)
Fixpoint map_mutate (m : list (string * V)) (k : string) (f : V -> V)
  : list (string * V) :=
  match m with
  | [] => []
  | (k', v') :: m' =>
      if (k' =? k)%string then (k', f v') :: m'
      else (k', v') :: map_mutate m' k f
  end.

Definition map_values (m : list (string * V)) : list V := map snd m.
End JsMap.

(** [Array.prototype.sort(cmp)]: a stable sort; [a] is placed before [b]
    when [cmp a b <= 0], and elements that compare equal keep their
    order.  The algorithm is left to the engine by the language
    definition; a stable insertion sort stands for it. *)
Section Sort.
Context {A : Type} (cmp : A -> A -> Z).

Fixpoint insert (x : A) (l : list A) : list A :=
  match l with
  | [] => [x]
  | y :: l' => if cmp x y <=? 0 then x :: l else y :: insert x l'
  end.

Fixpoint sort (l : list A) : list A :=
  match l with
  | [] => []
  | x :: l' => insert x (sort l')
  end.
End Sort.

End Js.

(** ** Data model *)

(** [type FilterType = 'all' | 'income' | 'expense']. *)
Inductive FilterType := type_all | type_income | type_expense.

Definition FilterType_value (t : FilterType) : string :=
  match t with
  | type_all => "all"
  | type_income => "income"
  | type_expense => "expense"
  end.

(** [type SortOption = 'newest' | 'oldest' | 'highest' | 'lowest']. *)
Inductive SortOption := newest | oldest | highest | lowest.

(** [type DateRangeOption = 'all' | 'today' | 'week' | 'month' | 'custom']. *)
Inductive DateRangeOption :=
  range_all | range_today | range_week | range_month | range_custom.

(** A transaction of the store.  [description] is [None] when the field
    is [null] or absent. *)
Record Transaction := mkTransaction {
  id : string;
  type : string;
  category : string;
  description : option string;
  date : string;
  amount : Z
}.

(** The consolidated filter state of the component. *)
Module Filters.
Record t := mk {
  type : FilterType;
  category : string;
  dateRange : DateRangeOption;
  sortOption : SortOption;
  searchTerm : string
}.
End Filters.

(** [interface TransactionGroup]. *)
Module TransactionGroup.
Record t := mk {
  title : string;
  date : Z;
  transactions : list Transaction
}.
End TransactionGroup.

(** The value of [paginatedData]. *)
Record PaginatedData := mkPaginatedData {
  groups : list TransactionGroup.t;
  totalPages : Z;
  totalItems : Z
}.

(** The value of [summary]. *)
Record Summary := mkSummary {
  totalIncome : Z;
  totalExpense : Z;
  balance : Z
}.

(** What [exportCSV] does: either an error toast and nothing else, or a
    download of [content] under [filename] followed by a success toast. *)
Inductive ExportResult :=
| ExportError (toast : string)
| ExportFile (content filename toast : string).

(** ** The host: JavaScript runtime and date-fns *)

Class Host := {
  (** [String.prototype.toLowerCase] *)
  toLowerCase : string -> string;
  (** [new Date(s).getTime()] *)
  newDate : string -> Z;
  (** date-fns [parseISO] *)
  parseISO : string -> Z;
  (** date-fns [isToday] and [isYesterday]; the first argument is the clock *)
  isToday : Z -> Z -> bool;
  isYesterday : Z -> Z -> bool;
  (** date-fns [isSameWeek a b { weekStartsOn }], week start first *)
  isSameWeek : Z -> Z -> Z -> bool;
  (** date-fns [isSameMonth] *)
  isSameMonth : Z -> Z -> bool;
  (** date-fns [format d pattern] *)
  format : Z -> string -> string;
  (** lower-casing yields the empty string on the empty string only *)
  toLowerCase_empty : forall s, toLowerCase s = "" <-> s = ""
}.

(** ** TransactionList.tsx *)

Definition newline : string := String (ascii_of_nat 10) EmptyString.

Definition itemsPerPage : Z := 10.

Section TransactionList.
Context {host : Host}.

(** The clock. *)
Variable now : Z.

(** The callback of [transactions.filter]. *)
Definition passesFilters (filters : Filters.t) (tx : Transaction) : bool :=
  let type_ := FilterType_value (Filters.type filters) in
  let category_ := Filters.category filters in
  let searchTerm := Filters.searchTerm filters in
  if negb (type_ =? "all")%string && negb (type tx =? type_)%string
  then false
  else if negb (category_ =? "all")%string
          && negb (category tx =? category_)%string
  then false
  else if negb (searchTerm =? "")%string
          && (let searchLower := toLowerCase searchTerm in
              let categoryMatch :=
                Js.includes (toLowerCase (category tx)) searchLower in
              let descriptionMatch :=
                match description tx with
                | None => false
                | Some d =>
                    negb (d =? "")%string
                    && Js.includes (toLowerCase d) searchLower
                end in
              negb categoryMatch && negb descriptionMatch)
  then false
  else
    match Filters.dateRange filters with
    | range_all => true
    | range_today => isToday now (parseISO (date tx))
    | range_week => isSameWeek 0 (parseISO (date tx)) now
    | range_month => isSameMonth (parseISO (date tx)) now
    | range_custom => true
    end.

(** The comparator handed to [sorted.sort] for each sort option. *)
Definition sortComparator (o : SortOption) (a b : Transaction) : Z :=
  match o with
  | newest => newDate (date b) - newDate (date a)
  | oldest => newDate (date a) - newDate (date b)
  | highest => amount b - amount a
  | lowest => amount a - amount b
  end.

(** [processedTransactions]. *)
Definition processedTransactions (transactionsLoading : bool)
    (transactions : list Transaction) (filters : Filters.t)
  : list Transaction :=
  if transactionsLoading || (Z.of_nat (List.length transactions) =? 0)
  then []
  else
    let filtered := filter (passesFilters filters) transactions in
    Js.sort (sortComparator (Filters.sortOption filters)) filtered.

(** The title of the bucket of a transaction date. *)
Definition groupTitle (txDate : Z) : string :=
  if isToday now txDate then "วันนี้"
  else if isYesterday now txDate then "เมื่อวาน"
  else if isSameWeek 1 txDate now then "สัปดาห์นี้"
  else if isSameMonth txDate now then "เดือนนี้"
  else format txDate "MMMM yyyy".

(** The body of [paginatedTxs.forEach]. *)
Definition addToGroupMap
    (groupMap : list (string * TransactionGroup.t)) (tx : Transaction)
  : list (string * TransactionGroup.t) :=
  let txDate := parseISO (date tx) in
  let title := groupTitle txDate in
  let groupMap1 :=
    if negb (Js.map_has groupMap title)
    then Js.map_set groupMap title (TransactionGroup.mk title txDate [])
    else groupMap in
  Js.map_mutate groupMap1 title
    (fun g => TransactionGroup.mk (TransactionGroup.title g)
                (TransactionGroup.date g)
                (TransactionGroup.transactions g ++ [tx])).

(** The slice of the processed list shown on [currentPage]. *)
Definition paginatedTxs (processed : list Transaction) (currentPage : Z)
  : list Transaction :=
  let startIndex := (currentPage - 1) * itemsPerPage in
  Js.slice processed startIndex (startIndex + itemsPerPage).

(** Grouping of a page: the map filled by [forEach], then its values
    sorted by date, latest first. *)
Definition groupPage (page : list Transaction) : list TransactionGroup.t :=
  let groupMap := fold_left addToGroupMap page [] in
  let groupArray := Js.map_values groupMap in
  Js.sort (fun a b => TransactionGroup.date b - TransactionGroup.date a)
    groupArray.

(** [paginatedData]. *)
Definition paginatedData (processed : list Transaction) (currentPage : Z)
  : PaginatedData :=
  if Z.of_nat (List.length processed) =? 0
  then mkPaginatedData [] 0 0
  else
    mkPaginatedData
      (groupPage (paginatedTxs processed currentPage))
      (Js.ceil_div (Z.of_nat (List.length processed)) itemsPerPage)
      (Z.of_nat (List.length processed)).

(** [summary]: the body of [forEach] and the returned object. *)
Definition summaryStep (acc : Z * Z) (tx : Transaction) : Z * Z :=
  let (totalIncome, totalExpense) := acc in
  if (type tx =? "income")%string
  then (totalIncome + amount tx, totalExpense)
  else (totalIncome, totalExpense + amount tx).

Definition summary (processed : list Transaction) : Summary :=
  let (totalIncome, totalExpense) := fold_left summaryStep processed (0, 0) in
  mkSummary totalIncome totalExpense (totalIncome - totalExpense).

(** One line of the CSV file. *)
Definition csvRow (tx : Transaction) : string :=
  let date_ := format (parseISO (date tx)) "yyyy-MM-dd" in
  let type_ :=
    if (type tx =? "income")%string then "รายรับ" else "รายจ่าย" in
  let amount_ := Js.number_toString (amount tx) in
  let escapedDescription :=
    (Js.dquote_str
     ++ match description tx with
        | None => ""
        | Some d => Js.double_quotes d
        end
     ++ Js.dquote_str)%string in
  let escapedCategory :=
    (Js.dquote_str ++ Js.double_quotes (category tx) ++ Js.dquote_str)%string in
  (date_ ++ "," ++ type_ ++ "," ++ escapedCategory ++ ","
   ++ escapedDescription ++ "," ++ amount_)%string.

Definition csvHeader : string :=
  ("วันที่,ประเภท,หมวดหมู่,รายละเอียด,จำนวนเงิน" ++ newline)%string.

(** [exportCSV]. *)
Definition exportCSV (processed : list Transaction) : ExportResult :=
  if Z.of_nat (List.length processed) =? 0
  then ExportError "ไม่มีข้อมูลที่จะส่งออก"
  else
    let csvRows := Js.join newline (map csvRow processed) in
    ExportFile (csvHeader ++ csvRows)%string
      ("transactions_" ++ format now "yyyy-MM-dd" ++ ".csv")%string
      "ส่งออกข้อมูลสำเร็จ".

(** The rows the list view renders: each group's cards, group after
    group. *)
Definition visibleRows (processed : list Transaction) (currentPage : Z)
  : list Transaction :=
  List.concat (map TransactionGroup.transactions
            (groups (paginatedData processed currentPage))).

End TransactionList.

(** ** app/api/categories/route.ts *)

Module CategoriesRoute.

(** The query described by the builder chain
    [from(table).select(columns).order(column)]. *)
Record QueryBuilder := mkQuery {
  table : string;
  columns : option string;
  orderBy : option string
}.

Definition from (t : string) : QueryBuilder := mkQuery t None None.
Definition select (q : QueryBuilder) (c : string) : QueryBuilder :=
  mkQuery (table q) (Some c) (orderBy q).
Definition order (q : QueryBuilder) (c : string) : QueryBuilder :=
  mkQuery (table q) (columns q) (Some c).

Section Route.
(** A row of the table, a thrown value, the incoming request. *)
Variables Row Exn Request : Type.

(** The object an awaited query resolves to. *)
Record QueryResult := mkResult {
  data : option (list Row);
  error : option Exn
}.

(** What lies outside the handler: creating the client throws or
    yields a client; an awaited query rejects or resolves. *)
Record World := mkWorld {
  clientCreation : Exn + unit;
  queryAnswer : QueryBuilder -> Exn + QueryResult
}.

(** The effects of the handler that can be observed. *)
Inductive Event :=
| CreateClient
| RunQuery (q : QueryBuilder)
| ConsoleError (message : string) (e : Exn).

(** The body of a JSON response and the response. *)
Inductive Body :=
| Rows (rows : list Row)
| ErrorObject (message : string).

Record Response := mkResponse {
  body : Body;
  status : Z
}.

(** [NextResponse.json(body)] and [NextResponse.json(body, { status })]. *)
Definition json (b : Body) : Response := mkResponse b 200.
Definition json_status (b : Body) (s : Z) : Response := mkResponse b s.

(** Computations: a log of events, and a value or a thrown exception. *)
Inductive Completion (A : Type) :=
| Normal (a : A)
| Throw (e : Exn).
Arguments Normal {A} a.
Arguments Throw {A} e.

Definition M (A : Type) : Type := list Event -> list Event * Completion A.

Definition ret {A} (a : A) : M A := fun log => (log, Normal a).
Definition throw {A} (e : Exn) : M A := fun log => (log, Throw e).
Definition emit (ev : Event) : M unit :=
  fun log => (log ++ [ev], Normal tt).
Definition bind {A B} (m : M A) (k : A -> M B) : M B :=
  fun log =>
    match m log with
    | (log', Normal a) => k a log'
    | (log', Throw e) => (log', Throw e)
    end.
Definition try_catch {A} (m : M A) (handler : Exn -> M A) : M A :=
  fun log =>
    match m log with
    | (log', Normal a) => (log', Normal a)
    | (log', Throw e) => handler e log'
    end.

Notation "x <- m ;; k" := (bind m (fun x => k))
  (at level 61, m at next level, right associativity).
Notation "m ;;; k" := (bind m (fun _ => k))
  (at level 61, right associativity).

Variable world : World.

(** [await createSupabaseServerClient()]. *)
Definition createSupabaseServerClient : M unit :=
  emit CreateClient ;;;
  match clientCreation world with
  | inl e => throw e
  | inr client => ret client
  end.

(** [await] of a query built on the client. *)
Definition await_query (client : unit) (q : QueryBuilder) : M QueryResult :=
  emit (RunQuery q) ;;;
  match queryAnswer world q with
  | inl e => throw e
  | inr r => ret r
  end.

Definition console_error (message : string) (e : Exn) : M unit :=
  emit (ConsoleError message e).

(** [export async function GET()].  The framework calls it with the
    request; the handler declares no parameter and drops it. *)
Definition GET (_ : Request) : M Response :=
  try_catch
    (supabase <- createSupabaseServerClient ;;
     r <- await_query supabase
            (order (select (from "categories") "*") "name") ;;
     match error r with
     | Some e => throw e
     | None =>
         ret (json (Rows match data r with
                         | Some rows => rows
                         | None => []
                         end))
     end)
    (fun e =>
       console_error "Error fetching categories:" e ;;;
       ret (json_status (ErrorObject "Failed to fetch categories") 500)).

(** Running the handler on a request, from an empty log. *)
Definition run (req : Request) : list Event * Completion Response :=
  GET req [].

(** The queries among the logged events. *)
Definition queries (log : list Event) : list QueryBuilder :=
  flat_map (fun ev => match ev with RunQuery q => [q] | _ => [] end) log.

(** The failure of an execution: creating the client throws, or the
    query rejects, or its result carries an error. *)
Definition failure : option Exn :=
  match clientCreation world with
  | inl e => Some e
  | inr _ =>
      match queryAnswer world (mkQuery "categories" (Some "*") (Some "name")) with
      | inl e => Some e
      | inr r => error r
      end
  end.

End Route.

Arguments Normal {Exn A} a.
Arguments Throw {Exn A} e.
Arguments Rows {Row} rows.
Arguments ErrorObject {Row} message.
Arguments CreateClient {Exn}.
Arguments RunQuery {Exn} q.
Arguments ConsoleError {Exn} message e.
Arguments mkResult {Row Exn} data error.
Arguments data {Row Exn} q.
Arguments error {Row Exn} q.
Arguments mkWorld {Row Exn} clientCreation queryAnswer.
Arguments clientCreation {Row Exn} w.
Arguments queryAnswer {Row Exn} w q.
Arguments mkResponse {Row} body status.
Arguments body {Row} r.
Arguments status {Row} r.
Arguments json {Row} b.
Arguments json_status {Row} b s.
Arguments ret {Exn A} a.
Arguments throw {Exn A} e.
Arguments emit {Exn} ev.
Arguments bind {Exn A B} m k.
Arguments try_catch {Exn A} m handler.
Arguments createSupabaseServerClient {Row Exn} world.
Arguments await_query {Row Exn} world client q.
Arguments console_error {Exn} message e.
Arguments GET {Row Exn Request} world _.
Arguments run {Row Exn Request} world req.
Arguments queries {Exn} log.
Arguments failure {Row Exn} world.

End CategoriesRoute.

(** ** A reference host

    Dates are written [YYYY-MM-DD] and read in the UTC time zone, both by
    [new Date] and by [parseISO]; lower-casing acts on ASCII letters. *)

Module Utc.

Definition msPerDay : Z := 86400000.

(** Days since 1970-01-01 of a civil date, and back. *)
Definition days_from_civil (y m d : Z) : Z :=
  let y' := if m <=? 2 then y - 1 else y in
  let era := y' / 400 in
  let yoe := y' - era * 400 in
  let mp := if m >? 2 then m - 3 else m + 9 in
  let doy := (153 * mp + 2) / 5 + d - 1 in
  let doe := yoe * 365 + yoe / 4 - yoe / 100 + doy in
  era * 146097 + doe - 719468.

Definition civil_from_days (days : Z) : Z * Z * Z :=
  let z := days + 719468 in
  let era := z / 146097 in
  let doe := z - era * 146097 in
  let yoe := (doe - doe / 1460 + doe / 36524 - doe / 146096) / 365 in
  let doy := doe - (365 * yoe + yoe / 4 - yoe / 100) in
  let mp := (5 * doy + 2) / 153 in
  let d := doy - (153 * mp + 2) / 5 + 1 in
  let m := if mp <? 10 then mp + 3 else mp - 9 in
  let y := yoe + era * 400 in
  (if m <=? 2 then y + 1 else y, m, d).

Fixpoint digits (s : string) (acc : Z) : Z :=
  match s with
  | EmptyString => acc
  | String c s' => digits s' (10 * acc + (Z.of_nat (nat_of_ascii c) - 48))
  end.

Definition parse (s : string) : Z :=
  days_from_civil (digits (substring 0 4 s) 0)
                  (digits (substring 5 2 s) 0)
                  (digits (substring 8 2 s) 0) * msPerDay.

Definition dayOf (t : Z) : Z := t / msPerDay.

(** 1970-01-01 was a Thursday. *)
Definition dayOfWeek (day : Z) : Z := (day + 4) mod 7.

Definition startOfWeek (weekStartsOn day : Z) : Z :=
  day - (dayOfWeek day - weekStartsOn) mod 7.

Definition sameMonth (a b : Z) : bool :=
  let '(ya, ma, _) := civil_from_days (dayOf a) in
  let '(yb, mb, _) := civil_from_days (dayOf b) in
  (ya =? yb) && (ma =? mb).

Definition monthName (m : Z) : string :=
  nth (Z.to_nat (m - 1))
    ["January"; "February"; "March"; "April"; "May"; "June"; "July";
     "August"; "September"; "October"; "November"; "December"] "".

Definition pad2 (n : Z) : string :=
  if n <? 10 then ("0" ++ Js.number_toString n)%string
  else Js.number_toString n.

Definition formatDate (t : Z) (pattern : string) : string :=
  let '(y, m, d) := civil_from_days (dayOf t) in
  if (pattern =? "MMMM yyyy")%string
  then (monthName m ++ " " ++ Js.number_toString y)%string
  else if (pattern =? "yyyy-MM-dd")%string
  then (Js.number_toString y ++ "-" ++ pad2 m ++ "-" ++ pad2 d)%string
  else "".

Definition lowerChar (c : ascii) : ascii :=
  let n := nat_of_ascii c in
  if ((65 <=? n) && (n <=? 90))%nat then ascii_of_nat (n + 32) else c.

Fixpoint lower (s : string) : string :=
  match s with
  | EmptyString => EmptyString
  | String c s' => String (lowerChar c) (lower s')
  end.

#[export] Instance host : Host.
Proof.
  refine {|
    toLowerCase := lower;
    newDate := parse;
    parseISO := parse;
    isToday := fun now d => dayOf d =? dayOf now;
    isYesterday := fun now d => dayOf d =? dayOf now - 1;
    isSameWeek := fun weekStartsOn a b =>
      startOfWeek weekStartsOn (dayOf a)
      =? startOfWeek weekStartsOn (dayOf b);
    isSameMonth := sameMonth;
    format := formatDate;
    toLowerCase_empty := _
  |}.
  intros s. destruct s; simpl; split; intro E; congruence.
Defined.

(** The clock of the examples: 2025-03-08, 10:48:32. *)
Definition clock : Z := parse "2025-03-08" + 38912000.

Definition tx (id_ type_ category_ date_ : string) (amount_ : Z)
  : Transaction :=
  mkTransaction id_ type_ category_ None date_ amount_.

End Utc.

(** ** Vocabulary of the specification *)

(** The sum of the amounts of a list of transactions. *)
Definition sum_amounts (l : list Transaction) : Z :=
  fold_right (fun tx s => amount tx + s) 0 l.

Definition isIncome (tx : Transaction) : bool := (type tx =? "income")%string.

(** The elements of [l] whose key is [k], in the order of [l]. *)
Definition bucket {A : Type} (key : A -> string) (l : list A) (k : string)
  : list A :=
  filter (fun x => (key x =? k)%string) l.

(** The bucket title of a transaction. *)
Definition titleOf {host : Host} (now : Z) (tx : Transaction) : string :=
  groupTitle now (parseISO (date tx)).

(** [g] is the bucket of its title over [page]: it holds the transactions
    of [page] with that title, in the order of [page], there is at least
    one, and the date of [g] is the parsed date of the first. *)
Definition bucketOf {host : Host} (now : Z) (page : list Transaction)
    (g : TransactionGroup.t) : Prop :=
  TransactionGroup.transactions g
  = bucket (titleOf now) page (TransactionGroup.title g)
  /\ exists tx0 rest,
       TransactionGroup.transactions g = tx0 :: rest
       /\ TransactionGroup.date g = parseISO (date tx0).

(** The state of [groupMap] after the transactions [seen]: keys are
    distinct, every transaction seen has its title among them, and each
    entry is the bucket of its key. *)
Definition groupMapInv {host : Host} (now : Z) (seen : list Transaction)
    (m : list (string * TransactionGroup.t)) : Prop :=
  NoDup (map fst m)
  /\ (forall tx, In tx seen -> In (titleOf now tx) (map fst m))
  /\ Forall (fun kv => TransactionGroup.title (snd kv) = fst kv
                       /\ bucketOf now seen (snd kv)) m.

(** [t] is the title picked for the date [d] by the first test that
    holds, in the order today, yesterday, this week, this month. *)
Definition firstMatchTitle {host : Host} (now d : Z) (t : string) : Prop :=
  (isToday now d = true -> t = "วันนี้")
  /\ (isToday now d = false -> isYesterday now d = true -> t = "เมื่อวาน")
  /\ (isToday now d = false -> isYesterday now d = false ->
      isSameWeek 1 d now = true -> t = "สัปดาห์นี้")
  /\ (isToday now d = false -> isYesterday now d = false ->
      isSameWeek 1 d now = false -> isSameMonth d now = true ->
      t = "เดือนนี้")
  /\ (isToday now d = false -> isYesterday now d = false ->
      isSameWeek 1 d now = false -> isSameMonth d now = false ->
      t = format d "MMMM yyyy").

(** The four conditions on a transaction under a filter state.  The date
    condition speaks of the ranges all, today, week and month; no range
    is described for [range_custom]. *)
Definition typeOk (filters : Filters.t) (tx : Transaction) : Prop :=
  Filters.type filters = type_all
  \/ type tx = FilterType_value (Filters.type filters).

Definition categoryOk (filters : Filters.t) (tx : Transaction) : Prop :=
  Filters.category filters = "all" \/ category tx = Filters.category filters.

(** [needle] occurs in [s]. *)
Definition isSubstring (needle s : string) : Prop :=
  exists before after, s = (before ++ needle ++ after)%string.

Definition searchOk {host : Host} (filters : Filters.t) (tx : Transaction)
  : Prop :=
  let term := toLowerCase (Filters.searchTerm filters) in
  Filters.searchTerm filters = ""
  \/ isSubstring term (toLowerCase (category tx))
  \/ exists d, description tx = Some d
               /\ isSubstring term (toLowerCase d).

Inductive dateOk {host : Host} (now : Z) (tx : Transaction)
  : DateRangeOption -> Prop :=
| dateOk_all : dateOk now tx range_all
| dateOk_today :
    isToday now (parseISO (date tx)) = true -> dateOk now tx range_today
| dateOk_week :
    isSameWeek 0 (parseISO (date tx)) now = true -> dateOk now tx range_week
| dateOk_month :
    isSameMonth (parseISO (date tx)) now = true -> dateOk now tx range_month.

(** CSV vocabulary: a field enclosed in double quotes, and the text of
    a field with each double quote written twice. *)
Definition quoted (s : string) : string :=
  (Js.dquote_str ++ s ++ Js.dquote_str)%string.



(** Reading an escaped text back: a pair of double quotes stands for one. *)
Fixpoint unescape (s : string) : string :=
  match s with
  | String c (String c' s' as rest) =>
      if Ascii.eqb c Js.dquote && Ascii.eqb c' Js.dquote
      then String c (unescape s')
      else String c (unescape rest)
  | _ => s
  end.


Definition headerLine : string := "วันที่,ประเภท,หมวดหมู่,รายละเอียด,จำนวนเงิน".

(** The CSV text whose data rows are [rows], in that order. *)
Definition csvOf {host : Host} (rows : list Transaction) : string :=
  Js.join newline (headerLine :: map csvRow rows).

(** Sample data: [count] transactions of the clock's day, numbered from
    [count] down to 1, and two transactions two months apart. *)
Fixpoint sameDayTransactions (count : nat) : list Transaction :=
  match count with
  | O => []
  | S k =>
      Utc.tx (Js.number_toString (Z.of_nat count)) "expense" "food"
        "2025-03-08" (Z.of_nat count)
      :: sameDayTransactions k
  end.

Definition januaryAndMarch : list Transaction :=
  [Utc.tx "a" "income" "salary" "2025-01-05" 100;
   Utc.tx "b" "expense" "food" "2025-03-08" 40].

Definition noFilter (o : SortOption) : Filters.t :=
  Filters.mk type_all "all" range_all o "".

(** The rows of the list view are the page slice, in its order. *)
Definition groupingKeepsPageOrder {host : Host} (now : Z)
    (processed : list Transaction) (p : Z) : Prop :=
  visibleRows now processed p = paginatedTxs processed p.

(** The exported data rows are the rows of the list view, in its order. *)
Definition exportsVisibleRows {host : Host} (now : Z)
    (processed : list Transaction) (p : Z) : Prop :=
  exists filename toast,
    exportCSV now processed
    = ExportFile (csvOf (visibleRows now processed p)) filename toast.

(** The query of the category route, and a world in which the client
    cannot be created. *)
Definition allCategoriesByName : CategoriesRoute.QueryBuilder :=
  CategoriesRoute.mkQuery "categories" (Some "*") (Some "name").

Definition noClientWorld : CategoriesRoute.World string unit :=
  CategoriesRoute.mkWorld (inl tt)
    (fun _ => inr (CategoriesRoute.mkResult (Some ["food"]) None)).

Definition servingWorld : CategoriesRoute.World string unit :=
  CategoriesRoute.mkWorld (inr tt)
    (fun _ => inr (CategoriesRoute.mkResult (Some ["food"]) None)).

(** The answer of the route to a failure, and the line it logs. *)
Definition errorResponse {Row : Type} : CategoriesRoute.Response Row :=
  CategoriesRoute.mkResponse
    (CategoriesRoute.ErrorObject "Failed to fetch categories") 500.

Definition logged {Exn : Type} (e : Exn) : CategoriesRoute.Event Exn :=
  CategoriesRoute.ConsoleError "Error fetching categories:" e.

(** The handler issues the one query. *)
Definition issuesExactlyOneQuery {Row Exn Request : Type}
    (world : CategoriesRoute.World Row Exn) (req : Request) : Prop :=
  CategoriesRoute.queries (fst (CategoriesRoute.run world req))
  = [allCategoriesByName].

Definition marchGroup : TransactionGroup.t :=
  TransactionGroup.mk "วันนี้" (Utc.parse "2025-03-08")
    [Utc.tx "b" "expense" "food" "2025-03-08" 40].

(** ** The rest of TransactionList.tsx *)

(** [new Set(array)] read back with [Array.from]: the values in the order
    of their first insertion. *)
Module JsSet.

Definition has (s : list string) (x : string) : bool :=
  existsb (fun y => (y =? x)%string) s.

Definition add (s : list string) (x : string) : list string :=
  if has s x then s else s ++ [x].

Definition of_array (l : list string) : list string := fold_left add l [].

End JsSet.

(** [uniqueCategories]. *)
Definition uniqueCategories (transactions : list Transaction) : list string :=
  if Z.of_nat (List.length transactions) =? 0 then ["all"]
  else "all" :: JsSet.of_array (map category transactions).

(** The state of the view that the handlers change: the filters and the
    current page. *)
Module View.
Record t := mk {
  filters : Filters.t;
  currentPage : Z
}.
End View.

(** The initial value of the two [useState] cells. *)
Definition initialFilters : Filters.t :=
  Filters.mk type_all "all" range_all newest "".

Definition initialView : View.t := View.mk initialFilters 1.

(** The five calls of [updateFilter(key, value)] in the view. *)
Inductive FilterUpdate :=
| set_type (value : FilterType)
| set_category (value : string)
| set_dateRange (value : DateRangeOption)
| set_sortOption (value : SortOption)
| set_searchTerm (value : string).

(** The object spread with one key replaced. *)
Definition spreadWith (prev : Filters.t) (u : FilterUpdate) : Filters.t :=
  match u with
  | set_type v =>
      Filters.mk v (Filters.category prev) (Filters.dateRange prev)
        (Filters.sortOption prev) (Filters.searchTerm prev)
  | set_category v =>
      Filters.mk (Filters.type prev) v (Filters.dateRange prev)
        (Filters.sortOption prev) (Filters.searchTerm prev)
  | set_dateRange v =>
      Filters.mk (Filters.type prev) (Filters.category prev) v
        (Filters.sortOption prev) (Filters.searchTerm prev)
  | set_sortOption v =>
      Filters.mk (Filters.type prev) (Filters.category prev)
        (Filters.dateRange prev) v (Filters.searchTerm prev)
  | set_searchTerm v =>
      Filters.mk (Filters.type prev) (Filters.category prev)
        (Filters.dateRange prev) (Filters.sortOption prev) v
  end.

(** [updateFilter] and [resetFilters]. *)
Definition updateFilter (u : FilterUpdate) (s : View.t) : View.t :=
  View.mk (spreadWith (View.filters s) u) 1.

Definition resetFilters (s : View.t) : View.t :=
  View.mk (Filters.mk type_all "all" range_all newest "") 1.

(** The handlers of the two arrow buttons. *)
Definition previousPage (s : View.t) : View.t :=
  View.mk (View.filters s) (Z.max 1 (View.currentPage s - 1)).

Definition nextPage (totalPages_ : Z) (s : View.t) : View.t :=
  View.mk (View.filters s) (Z.min totalPages_ (View.currentPage s + 1)).

(** The page number on the button of index [i]. *)
Definition pageToShow (totalPages_ currentPage_ i : Z) : Z :=
  if totalPages_ <=? 5 then i + 1
  else if currentPage_ <=? 3 then i + 1
  else if currentPage_ >=? totalPages_ - 2 then totalPages_ - 4 + i
  else currentPage_ - 2 + i.

(** The numbers on the page buttons, left to right. *)
Definition pageButtons (totalPages_ currentPage_ : Z) : list Z :=
  map (fun i => pageToShow totalPages_ currentPage_ (Z.of_nat i))
    (seq 0 (Z.to_nat (Z.min 5 totalPages_))).

Definition goToPage (page : Z) (s : View.t) : View.t :=
  View.mk (View.filters s) page.

(** The badge on the filter button: the number of active filters. *)
Definition activeFilterCount (filters : Filters.t) : Z :=
  (if negb (FilterType_value (Filters.type filters) =? "all")%string
   then 1 else 0)
  + (match Filters.dateRange filters with range_all => 0 | _ => 1 end)
  + (if negb (Filters.category filters =? "all")%string then 1 else 0).

(** The two numbers of the line under the list: first and last item
    shown. *)
Definition shownRange (currentPage_ n : Z) : Z * Z :=
  ((currentPage_ - 1) * itemsPerPage + 1,
   Z.min (currentPage_ * itemsPerPage) n).

(** What the view computes from the store and its state, once the store
    has loaded. *)
Section ViewData.
Context {host : Host}.
Variable now : Z.
Variable transactions : list Transaction.

Definition processedOf (s : View.t) : list Transaction :=
  processedTransactions now false transactions (View.filters s).

Definition totalPagesOf (s : View.t) : Z :=
  totalPages (paginatedData now (processedOf s) (View.currentPage s)).

(** The footer with the page buttons is rendered. *)
Definition paginationShown (s : View.t) : Prop :=
  (0 < List.length (processedOf s))%nat /\ 1 < totalPagesOf s.

(** The values the controls of the view offer: three tabs for the type,
    the entries of [uniqueCategories], four date ranges, four sort
    options and any text in the search box. *)
Definition offered (u : FilterUpdate) : Prop :=
  match u with
  | set_type _ => True
  | set_category c => In c (uniqueCategories transactions)
  | set_dateRange r =>
      In r [range_all; range_today; range_week; range_month]
  | set_sortOption _ => True
  | set_searchTerm _ => True
  end.

(** One user action on the view, the store left as it is.  Buttons that
    are not rendered or are disabled cannot be clicked. *)
Inductive step : View.t -> View.t -> Prop :=
| step_update (u : FilterUpdate) (s : View.t) :
    offered u -> step s (updateFilter u s)
| step_reset (s : View.t) : step s (resetFilters s)
| step_previous (s : View.t) :
    paginationShown s -> View.currentPage s <> 1 -> step s (previousPage s)
| step_next (s : View.t) :
    paginationShown s -> View.currentPage s < totalPagesOf s ->
    step s (nextPage (totalPagesOf s) s)
| step_page (s : View.t) (page : Z) :
    paginationShown s ->
    In page (pageButtons (totalPagesOf s) (View.currentPage s)) ->
    step s (goToPage page s).

Inductive reachable : View.t -> Prop :=
| reachable_initial : reachable initialView
| reachable_step (s s' : View.t) : reachable s -> step s s' -> reachable s'.

End ViewData.

(** [handleDelete]: the store's [deleteTransaction] resolves or rejects;
    the handler shows a toast and, on success, closes the two dialogs. *)
Module Deletion.

(** The two state cells the handler writes. *)
Record Dialogs := mkDialogs {
  deleteId : option string;
  selectedTransaction : option Transaction
}.

Section Handler.
Variable Exn : Type.

(** [None] when the promise resolves, [Some e] when it rejects with [e]. *)
Variable deleteTransaction : string -> option Exn.

Inductive Event :=
| DeleteCall (id_ : string)
| ToastSuccess (message : string)
| ToastError (message : string)
| ConsoleError (message : string) (e : Exn).

Record State := mkState {
  log : list Event;
  dialogs : Dialogs
}.

Inductive Completion (A : Type) :=
| Normal (a : A)
| Throw (e : Exn).
Arguments Normal {A} a.
Arguments Throw {A} e.

Definition M (A : Type) : Type := State -> State * Completion A.

Definition ret {A} (a : A) : M A := fun st => (st, Normal a).
Definition throw {A} (e : Exn) : M A := fun st => (st, Throw e).
Definition bind {A B} (m : M A) (k : A -> M B) : M B :=
  fun st =>
    match m st with
    | (st', Normal a) => k a st'
    | (st', Throw e) => (st', Throw e)
    end.
Definition try_catch {A} (m : M A) (handler : Exn -> M A) : M A :=
  fun st =>
    match m st with
    | (st', Normal a) => (st', Normal a)
    | (st', Throw e) => handler e st'
    end.
Definition emit (ev : Event) : M unit :=
  fun st => (mkState (log st ++ [ev]) (dialogs st), Normal tt).

Notation "m ;;; k" := (bind m (fun _ => k))
  (at level 61, right associativity).

Definition await_deleteTransaction (id_ : string) : M unit :=
  emit (DeleteCall id_) ;;;
  match deleteTransaction id_ with
  | Some e => throw e
  | None => ret tt
  end.

Definition setDeleteId (v : option string) : M unit :=
  fun st =>
    (mkState (log st)
       (mkDialogs v (selectedTransaction (dialogs st))), Normal tt).

Definition setSelectedTransaction (v : option Transaction) : M unit :=
  fun st =>
    (mkState (log st) (mkDialogs (deleteId (dialogs st)) v), Normal tt).

Definition handleDelete (id_ : string) : M unit :=
  try_catch
    (await_deleteTransaction id_ ;;;
     emit (ToastSuccess "ลบรายการสำเร็จ") ;;;
     setDeleteId None ;;;
     setSelectedTransaction None)
    (fun e =>
       emit (ToastError "เกิดข้อผิดพลาดในการลบรายการ") ;;;
       emit (ConsoleError "Error deleting transaction:" e)).

End Handler.

Arguments Normal {Exn A} a.
Arguments Throw {Exn A} e.
Arguments DeleteCall {Exn} id_.
Arguments ToastSuccess {Exn} message.
Arguments ToastError {Exn} message.
Arguments ConsoleError {Exn} message e.
Arguments mkState {Exn} log dialogs.
Arguments log {Exn} s.
Arguments dialogs {Exn} s.
Arguments handleDelete {Exn} deleteTransaction id_ _.

End Deletion.

(** [formatThaiMonth] and [formatThaiShortDate], over the three getters
    of [Date] that they call. *)
Definition thaiMonths : list string :=
  ["มกราคม"; "กุมภาพันธ์"; "มีนาคม"; "เมษายน"; "พฤษภาคม"; "มิถุนายน";
   "กรกฎาคม"; "สิงหาคม"; "กันยายน"; "ตุลาคม"; "พฤศจิกายน"; "ธันวาคม"].

Definition thaiMonthsShort : list string :=
  ["ม.ค."; "ก.พ."; "มี.ค."; "เม.ย."; "พ.ค."; "มิ.ย.";
   "ก.ค."; "ส.ค."; "ก.ย."; "ต.ค."; "พ.ย."; "ธ.ค."].

(** An array element inside a template literal; outside the array it
    reads [undefined]. *)
Definition elementText (l : list string) (i : Z) : string :=
  if i <? 0 then "undefined" else nth (Z.to_nat i) l "undefined".

(** [s.substring(start)]. *)
Definition substringFrom (start : nat) (s : string) : string :=
  substring start (String.length s - start) s.

Section ThaiDates.
Variables getDate getMonth getFullYear : Z -> Z.

Definition formatThaiMonth (d : Z) : string :=
  let day := getDate d in
  let month := elementText thaiMonths (getMonth d) in
  let year := getFullYear d + 543 in
  (Js.number_toString day ++ " " ++ month ++ " "
   ++ Js.number_toString year)%string.

Definition formatThaiShortDate (d : Z) : string :=
  let day := getDate d in
  let month := elementText thaiMonthsShort (getMonth d) in
  let year := substringFrom 2 (Js.number_toString (getFullYear d + 543)) in
  (Js.number_toString day ++ " " ++ month ++ " " ++ year)%string.

End ThaiDates.

(** A number below 100 written with two digits. *)
Definition twoDigits (n : Z) : string :=
  if n <? 10 then ("0" ++ Js.number_toString n)%string
  else Js.number_toString n.

(** The years of the Buddhist era with four digits, and the test that
    the short form of such a year is its last two digits. *)
Definition fourDigitYears : list Z :=
  map (fun k => 1000 + Z.of_nat k) (seq 0 (Z.to_nat 9000)).

Definition shortYearIsLastTwoDigits (year : Z) : bool :=
  (substringFrom 2 (Js.number_toString year) =? twoDigits (year mod 100))%string.

(** The getters of [Date] for the reference host. *)
Definition utcFullYear (d : Z) : Z :=
  let '(y, _, _) := Utc.civil_from_days (Utc.dayOf d) in y.

Definition utcMonth (d : Z) : Z :=
  let '(_, m, _) := Utc.civil_from_days (Utc.dayOf d) in m - 1.

Definition utcDate (d : Z) : Z :=
  let '(_, _, day) := Utc.civil_from_days (Utc.dayOf d) in day.

(** ** More vocabulary *)

(** The values of [l] without repetition, each at its first place. *)
Fixpoint firstOccurrences (l : list string) : list string :=
  match l with
  | [] => []
  | x :: l' =>
      x :: filter (fun y => negb (y =? x)%string) (firstOccurrences l')
  end.

(** The number a sort option orders by. *)
Definition sortKey {host : Host} (o : SortOption) (tx : Transaction) : Z :=
  match o with
  | newest | oldest => newDate (date tx)
  | highest | lowest => amount tx
  end.

(** The number of double quotes in a text. *)
Fixpoint countQuotes (s : string) : nat :=
  match s with
  | EmptyString => 0%nat
  | String c s' =>
      ((if Ascii.eqb c Js.dquote then 1 else 0) + countQuotes s')%nat
  end.

(** Membership in the processed list is the conjunction of the four
    conditions, whatever the loading flag and the date range. *)
Definition filteringIsConjunction {host : Host} (now : Z) (loading : bool)
    (transactions : list Transaction) (filters : Filters.t)
    (tx : Transaction) : Prop :=
  In tx (processedTransactions now loading transactions filters)
  <-> In tx transactions
      /\ typeOk filters tx /\ categoryOk filters tx /\ searchOk filters tx
      /\ dateOk now tx (Filters.dateRange filters).

(** * Properties *)

(** ** The built-ins *)

Section SortFacts.
Context {A : Type} (cmp : A -> A -> Z).

Lemma insert_perm (x : A) (l : list A) :
  Permutation (x :: l) (Js.insert cmp x l).
Proof.
  induction l as [|y l IH]; simpl.
  - apply Permutation_refl.
  - destruct (cmp x y <=? 0).
    + apply Permutation_refl.
    + eapply perm_trans; [apply perm_swap|].
      now constructor.
Qed.

Lemma sort_perm (l : list A) : Permutation l (Js.sort cmp l).
Proof.
  induction l as [|x l IH]; simpl.
  - constructor.
  - eapply perm_trans; [|apply insert_perm].
    now constructor.
Qed.

Lemma sort_In (l : list A) (x : A) : In x (Js.sort cmp l) <-> In x l.
Proof.
  split; apply Permutation_in;
    [apply Permutation_sym|]; apply sort_perm.
Qed.

Lemma sort_length (l : list A) : List.length (Js.sort cmp l) = List.length l.
Proof. symmetry. apply Permutation_length, sort_perm. Qed.

(** A comparator that is the difference of an integer key orders the
    output by that key. *)
Variable key : A -> Z.
Hypothesis cmp_key : forall a b, cmp a b = key a - key b.

Lemma insert_sorted (x : A) (l : list A) :
  StronglySorted (fun a b => key a <= key b) l ->
  StronglySorted (fun a b => key a <= key b) (Js.insert cmp x l).
Proof.
  induction 1 as [|y l Hl IH Hy]; simpl.
  - repeat constructor.
  - destruct (cmp x y <=? 0) eqn:E.
    + apply Z.leb_le in E. rewrite cmp_key in E.
      constructor; [now constructor|].
      constructor; [lia|].
      eapply Forall_impl; [|exact Hy].
      simpl. intros. lia.
    + apply Z.leb_gt in E. rewrite cmp_key in E.
      constructor; [exact IH|].
      eapply Permutation_Forall; [apply insert_perm|].
      constructor; [lia|exact Hy].
Qed.

Lemma sort_sorted (l : list A) :
  StronglySorted (fun a b => key a <= key b) (Js.sort cmp l).
Proof.
  induction l as [|x l IH]; simpl.
  - constructor.
  - now apply insert_sorted.
Qed.
End SortFacts.

Lemma StronglySorted_impl {A : Type} (R S : A -> A -> Prop) (l : list A) :
  (forall a b, R a b -> S a b) -> StronglySorted R l -> StronglySorted S l.
Proof.
  intros HRS. induction 1 as [|x l Hl IH Hx]; constructor; auto.
  eapply Forall_impl; [|exact Hx]. auto.
Qed.

Section SliceFacts.
Context {A : Type}.

(** From a non-negative start, [slice] is [skipn] followed by [firstn]. *)
Lemma slice_nonneg (l : list A) (start count : Z) :
  0 <= start -> 0 <= count ->
  Js.slice l start (start + count)
  = firstn (Z.to_nat count) (skipn (Z.to_nat start) l).
Proof.
  intros Hs Hc. unfold Js.slice.
  set (len := Z.of_nat (List.length l)).
  assert (Hlen : 0 <= len) by (unfold len; lia).
  destruct (start <? 0) eqn:E1; [apply Z.ltb_lt in E1; lia|].
  destruct (start + count <? 0) eqn:E2; [apply Z.ltb_lt in E2; lia|].
  destruct (Z.le_gt_cases len start) as [Hge|Hlt].
  - rewrite (Z.min_r start len) by lia.
    rewrite (skipn_all2 (n := Z.to_nat len) l) by (unfold len; lia).
    rewrite (skipn_all2 (n := Z.to_nat start) l) by (unfold len in Hge; lia).
    now rewrite !firstn_nil.
  - rewrite (Z.min_l start len) by lia.
    destruct (Z.le_gt_cases (start + count) len) as [Hin|Hout].
    + rewrite Z.min_l by lia. f_equal. lia.
    + rewrite Z.min_r by lia.
      rewrite !firstn_all2; try reflexivity;
        rewrite length_skipn; unfold len in *; lia.
Qed.

(** Cutting a list into [m] chunks of [k] elements loses nothing when
    [m * k] reaches its length. *)
Lemma chunks_concat (k m : nat) (l : list A) :
  (List.length l <= m * k)%nat ->
  List.concat (map (fun i => firstn k (skipn (i * k) l)) (seq 0 m)) = l.
Proof.
  revert l. induction m as [|m IH]; intros l Hlen.
  - destruct l; [reflexivity|simpl in Hlen; lia].
  - cbn [seq map List.concat]. rewrite <- seq_shift, map_map.
    rewrite (map_ext _ (fun i => firstn k (skipn (i * k) (skipn k l)))).
    + rewrite IH by (rewrite length_skipn; lia).
      apply firstn_skipn.
    + intros i. rewrite skipn_skipn. do 2 f_equal. lia.
Qed.

Lemma slice_incl (l : list A) (start end_ : Z) (x : A) :
  In x (Js.slice l start end_) -> In x l.
Proof.
  unfold Js.slice.
  set (n := Z.to_nat _). set (k := Z.to_nat _). intros H.
  rewrite <- (firstn_skipn k l). apply in_or_app. right.
  rewrite <- (firstn_skipn n (skipn k l)). apply in_or_app. now left.
Qed.
End SliceFacts.

Lemma ceil_div_spec (n d : Z) :
  0 < d -> d * (Js.ceil_div n d - 1) < n <= d * Js.ceil_div n d.
Proof.
  intros Hd. unfold Js.ceil_div.
  pose proof (Z.div_mod n d ltac:(lia)) as E.
  pose proof (Z.mod_pos_bound n d Hd) as B.
  destruct (n mod d =? 0) eqn:M.
  - apply Z.eqb_eq in M. nia.
  - apply Z.eqb_neq in M. nia.
Qed.

(** ** Sorting *)

Section Sorting.
Context {host : Host}.
Variable now : Z.

(** What sorting with the comparator of a sort option gives on any
    list. *)
Lemma sort_by_option (o : SortOption) (l : list Transaction) :
  let sorted := Js.sort (sortComparator o) l in
  Permutation l sorted
  /\ match o with
     | newest =>
         StronglySorted
           (fun a b => newDate (date a) >= newDate (date b)) sorted
     | oldest =>
         StronglySorted
           (fun a b => newDate (date a) <= newDate (date b)) sorted
     | highest => StronglySorted (fun a b => amount a >= amount b) sorted
     | lowest => StronglySorted (fun a b => amount a <= amount b) sorted
     end.
Proof.
  intros sorted. split; [apply sort_perm|].
  subst sorted. destruct o.
  - eapply StronglySorted_impl;
      [|apply (sort_sorted _ (fun tx => - newDate (date tx)))].
    + simpl. intros. lia.
    + intros a b. simpl. lia.
  - apply (sort_sorted _ (fun tx => newDate (date tx))).
    intros a b. reflexivity.
  - eapply StronglySorted_impl;
      [|apply (sort_sorted _ (fun tx => - amount tx))].
    + simpl. intros. lia.
    + intros a b. simpl. lia.
  - apply (sort_sorted _ (fun tx => amount tx)).
    intros a b. reflexivity.
Qed.

(** C4. The processed list of the loaded store is a permutation of the
    filtered transactions, and it is ordered by date, latest first under
    [newest] and earliest first under [oldest], and by amount, largest
    first under [highest] and smallest first under [lowest]. *)
Theorem sort_ordered_permutation (transactions : list Transaction)
    (filters : Filters.t) :
  let filtered := filter (passesFilters now filters) transactions in
  let sorted := processedTransactions now false transactions filters in
  Permutation filtered sorted
  /\ match Filters.sortOption filters with
     | newest =>
         StronglySorted
           (fun a b => newDate (date a) >= newDate (date b)) sorted
     | oldest =>
         StronglySorted
           (fun a b => newDate (date a) <= newDate (date b)) sorted
     | highest => StronglySorted (fun a b => amount a >= amount b) sorted
     | lowest => StronglySorted (fun a b => amount a <= amount b) sorted
     end.
Proof.
  intros filtered sorted.
  assert (E : sorted
              = Js.sort (sortComparator (Filters.sortOption filters))
                  filtered).
  { subst sorted filtered. unfold processedTransactions. cbn [orb].
    destruct transactions as [|tx l]; reflexivity. }
  rewrite E. apply sort_by_option.
Qed.
End Sorting.

(** ** Summary totals *)

Lemma summary_fold (l : list Transaction) (inc exp : Z) :
  fold_left summaryStep l (inc, exp)
  = (inc + sum_amounts (filter isIncome l),
     exp + sum_amounts (filter (fun tx => negb (isIncome tx)) l)).
Proof.
  revert inc exp. induction l as [|tx l IH]; intros inc exp; simpl.
  - f_equal; lia.
  - cbn [fold_left filter summaryStep].
    destruct (isIncome tx) eqn:E; unfold isIncome in E; rewrite E;
      cbn [negb]; rewrite IH; cbn [sum_amounts fold_right];
      fold (sum_amounts (filter isIncome l));
      fold (sum_amounts (filter (fun tx => negb (isIncome tx)) l));
      f_equal; lia.
Qed.

(** C8. [totalIncome] sums the amounts of the transactions of type
    income, [totalExpense] sums the amounts of all the others, whatever
    their type, and [balance] is their difference. *)
Theorem summary_totals (processed : list Transaction) :
  totalIncome (summary processed) = sum_amounts (filter isIncome processed)
  /\ totalExpense (summary processed)
     = sum_amounts (filter (fun tx => negb (isIncome tx)) processed)
  /\ balance (summary processed)
     = totalIncome (summary processed) - totalExpense (summary processed).
Proof.
  unfold summary. rewrite summary_fold. simpl. repeat split.
Qed.

(** ** Lists, buckets and maps *)

Section ListFacts.
Context {A : Type}.

Lemma filter_split_perm (f : A -> bool) (l : list A) :
  Permutation (filter f l ++ filter (fun x => negb (f x)) l) l.
Proof.
  induction l as [|x l IH]; simpl; [constructor|].
  destruct (f x); simpl.
  - now constructor.
  - apply Permutation_sym, Permutation_cons_app, Permutation_sym, IH.
Qed.

Lemma concat_map_perm {B : Type} (f : A -> list B) (l l' : list A) :
  Permutation l l' ->
  Permutation (List.concat (map f l)) (List.concat (map f l')).
Proof.
  induction 1 as [|x l l' _ IH|x y l|l l' l'' _ IH1 _ IH2]; simpl.
  - constructor.
  - now apply Permutation_app_head.
  - apply Permutation_app_swap_app.
  - now apply perm_trans with (List.concat (map f l')).
Qed.

Lemma NoDup_snoc (l : list A) (x : A) :
  NoDup l -> ~ In x l -> NoDup (l ++ [x]).
Proof.
  intros Hl Hx. apply NoDup_app. repeat split.
  - exact Hl.
  - repeat constructor. intros [].
  - intros a Ha [<-|[]]. now apply Hx.
Qed.

(** Buckets by a string key: when the keys [ks] are distinct and every
    element has its key among them, the buckets taken in the order of
    [ks] hold the elements of [l], each once. *)
Variable key : A -> string.

Lemma bucket_partition (ks : list string) (l : list A) :
  NoDup ks -> (forall x, In x l -> In (key x) ks) ->
  Permutation (List.concat (map (bucket key l) ks)) l.
Proof.
  intros Hnd. revert l.
  induction Hnd as [|k ks Hk Hnd IH]; intros l Hcov.
  - destruct l as [|x l]; [constructor|].
    destruct (Hcov x (or_introl eq_refl)).
  - simpl.
    set (rest := filter (fun x => negb (key x =? k)%string) l).
    assert (E : map (bucket key l) ks = map (bucket key rest) ks).
    { apply map_ext_in. intros k' Hk'. unfold bucket, rest.
      induction l as [|x l IHl]; simpl; [reflexivity|].
      destruct (key x =? k)%string eqn:Ek; simpl.
      - apply String.eqb_eq in Ek.
        destruct (key x =? k')%string eqn:Ek'.
        + apply String.eqb_eq in Ek'. congruence.
        + apply IHl. intros y Hy. apply Hcov. now right.
      - destruct (key x =? k')%string; [f_equal|];
          apply IHl; intros y Hy; apply Hcov; now right. }
    rewrite E.
    eapply perm_trans; [|apply (filter_split_perm
                                  (fun x => (key x =? k)%string) l)].
    apply Permutation_app_head. apply IH.
    intros x Hx. unfold rest in Hx. apply filter_In in Hx.
    destruct Hx as [Hx Hne]. cbv beta in Hne.
    destruct (Hcov x Hx) as [E'|Hin]; [|exact Hin].
    rewrite <- E', String.eqb_refl in Hne. discriminate.
Qed.
End ListFacts.

Section MapFacts.
Context {V : Type}.
Implicit Types (m : list (string * V)) (k : string).

Lemma map_has_In m k : Js.map_has m k = true <-> In k (map fst m).
Proof.
  unfold Js.map_has. rewrite existsb_exists, in_map_iff. split.
  - intros [kv [Hin E]]. apply String.eqb_eq in E. now exists kv.
  - intros [kv [E Hin]]. exists kv. split; [exact Hin|].
    now apply String.eqb_eq.
Qed.

Lemma map_has_false m k : Js.map_has m k = false <-> ~ In k (map fst m).
Proof.
  rewrite <- map_has_In. destruct (Js.map_has m k); split; congruence.
Qed.

(** [set] on a new key appends. *)
Lemma map_set_new m k (v : V) :
  ~ In k (map fst m) -> Js.map_set m k v = m ++ [(k, v)].
Proof.
  induction m as [|[k' v'] m IH]; simpl; intros Hk; [reflexivity|].
  destruct (k' =? k)%string eqn:E.
  - apply String.eqb_eq in E. tauto.
  - rewrite IH by tauto. reflexivity.
Qed.

Lemma map_mutate_new m k (f : V -> V) :
  ~ In k (map fst m) -> Js.map_mutate m k f = m.
Proof.
  induction m as [|[k' v'] m IH]; simpl; intros Hk; [reflexivity|].
  destruct (k' =? k)%string eqn:E.
  - apply String.eqb_eq in E. tauto.
  - rewrite IH by tauto. reflexivity.
Qed.

Lemma map_mutate_last m k (v : V) (f : V -> V) :
  ~ In k (map fst m) ->
  Js.map_mutate (m ++ [(k, v)]) k f = m ++ [(k, f v)].
Proof.
  induction m as [|[k' v'] m IH]; simpl; intros Hk.
  - now rewrite String.eqb_refl.
  - destruct (k' =? k)%string eqn:E.
    + apply String.eqb_eq in E. tauto.
    + rewrite IH by tauto. reflexivity.
Qed.

(** With distinct keys, mutating under [k] touches the entries of key
    [k] and no other. *)
Lemma map_mutate_map m k (f : V -> V) :
  NoDup (map fst m) ->
  Js.map_mutate m k f
  = map (fun kv => if (fst kv =? k)%string then (fst kv, f (snd kv))
                   else kv) m.
Proof.
  induction m as [|[k' v'] m IH]; simpl; intros Hnd; [reflexivity|].
  inversion Hnd as [|? ? Hk' Hnd']; subst.
  destruct (k' =? k)%string eqn:E.
  - apply String.eqb_eq in E. subst k'. f_equal.
    rewrite <- (map_mutate_new m k f Hk') at 1.
    now apply IH.
  - f_equal. now apply IH.
Qed.
End MapFacts.

(** ** Grouping a page *)

Section Grouping.
Context {host : Host}.
Variable now : Z.

Lemma bucket_snoc_same (seen : list Transaction) (tx : Transaction) :
  bucket (titleOf now) (seen ++ [tx]) (titleOf now tx)
  = bucket (titleOf now) seen (titleOf now tx) ++ [tx].
Proof.
  unfold bucket. rewrite filter_app. simpl.
  now rewrite String.eqb_refl.
Qed.

Lemma bucket_snoc_other (seen : list Transaction) (tx : Transaction)
    (k : string) :
  titleOf now tx <> k ->
  bucket (titleOf now) (seen ++ [tx]) k = bucket (titleOf now) seen k.
Proof.
  intros Hne. unfold bucket. rewrite filter_app. simpl.
  apply String.eqb_neq in Hne. rewrite Hne. apply app_nil_r.
Qed.

Lemma bucketOf_snoc_other (seen : list Transaction) (tx : Transaction)
    (g : TransactionGroup.t) :
  titleOf now tx <> TransactionGroup.title g ->
  bucketOf now seen g -> bucketOf now (seen ++ [tx]) g.
Proof.
  intros Hne [Hb Hhd]. split; [|exact Hhd].
  now rewrite bucket_snoc_other.
Qed.

Lemma bucket_unseen (seen : list Transaction) (ks : list string)
    (k : string) :
  (forall x, In x seen -> In (titleOf now x) ks) -> ~ In k ks ->
  bucket (titleOf now) seen k = [].
Proof.
  intros Hcov Hk. unfold bucket.
  induction seen as [|x seen IH]; [reflexivity|]. simpl.
  destruct (titleOf now x =? k)%string eqn:Ex.
  - apply String.eqb_eq in Ex. exfalso. apply Hk.
    rewrite <- Ex. apply Hcov. now left.
  - apply IH. intros y Hy. apply Hcov. now right.
Qed.

(** One round of [forEach] keeps the invariant of the map. *)
Lemma addToGroupMap_inv (seen : list Transaction)
    (m : list (string * TransactionGroup.t)) (tx : Transaction) :
  groupMapInv now seen m ->
  groupMapInv now (seen ++ [tx]) (addToGroupMap now m tx).
Proof.
  intros (Hnd & Hcov & Hall). unfold addToGroupMap.
  fold (titleOf now tx). set (t := titleOf now tx).
  destruct (Js.map_has m t) eqn:Hhas; cbn [negb].
  - (* the bucket exists *)
    rewrite (map_mutate_map _ _ _ Hnd).
    set (upd := fun kv : string * TransactionGroup.t => _).
    assert (Hkeys : map fst (map upd m) = map fst m).
    { rewrite map_map. apply map_ext. intros [k g]. unfold upd. simpl.
      now destruct (k =? t)%string. }
    split; [now rewrite Hkeys|]. split.
    + intros x Hx. rewrite Hkeys. apply in_app_or in Hx.
      destruct Hx as [Hx|[<-|[]]]; [now apply Hcov|].
      now apply map_has_In.
    + apply Forall_map. eapply Forall_impl; [|exact Hall].
      intros [k g] [Ht Hb]. unfold upd. simpl in *.
      destruct (k =? t)%string eqn:E.
      * apply String.eqb_eq in E. simpl. split; [exact Ht|].
        destruct Hb as [Hb (tx0 & rest & Hhd & Hd)].
        split; simpl.
        -- rewrite Ht, E. unfold t. rewrite bucket_snoc_same.
           fold t. rewrite <- E, <- Ht. now rewrite Hb.
        -- exists tx0, (rest ++ [tx]). rewrite Hhd. now split.
      * apply String.eqb_neq in E. cbn [fst snd]. split; [exact Ht|].
        apply bucketOf_snoc_other; [|exact Hb].
        rewrite Ht. unfold t in E. congruence.
  - (* a new bucket *)
    apply map_has_false in Hhas.
    rewrite (map_set_new _ _ _ Hhas), (map_mutate_last _ _ _ _ Hhas).
    cbn [TransactionGroup.title TransactionGroup.date
         TransactionGroup.transactions app].
    split; [|split].
    + rewrite map_app. simpl. now apply NoDup_snoc.
    + intros x Hx. rewrite map_app. apply in_or_app.
      apply in_app_or in Hx. destruct Hx as [Hx|[<-|[]]].
      * left. now apply Hcov.
      * right. now left.
    + apply Forall_app. split.
      * rewrite Forall_forall in Hall |- *.
        intros [k g] Hin. destruct (Hall _ Hin) as [Ht Hb].
        cbn [fst snd] in *.
        split; [exact Ht|]. apply bucketOf_snoc_other; [|exact Hb].
        rewrite Ht. intros E. apply Hhas.
        fold t in E. rewrite E. apply in_map_iff.
        now exists (k, g).
      * constructor; [|constructor]. simpl. split; [reflexivity|].
        split; simpl.
        -- unfold t. rewrite bucket_snoc_same. fold t.
           now rewrite (bucket_unseen _ _ _ Hcov Hhas).
        -- exists tx, []. now split.
Qed.

Lemma fold_addToGroupMap_inv (l seen : list Transaction)
    (m : list (string * TransactionGroup.t)) :
  groupMapInv now seen m ->
  groupMapInv now (seen ++ l) (fold_left (addToGroupMap now) l m).
Proof.
  revert seen m. induction l as [|tx l IH]; intros seen m Hinv; simpl.
  - now rewrite app_nil_r.
  - replace (seen ++ tx :: l) with ((seen ++ [tx]) ++ l)
      by (rewrite <- app_assoc; reflexivity).
    apply IH. now apply addToGroupMap_inv.
Qed.

Lemma groupMap_of_page (page : list Transaction) :
  groupMapInv now page (fold_left (addToGroupMap now) page []).
Proof.
  apply (fold_addToGroupMap_inv page []).
  repeat split; [constructor|intros tx []|constructor].
Qed.

Lemma groupTitle_firstMatch (d : Z) : firstMatchTitle now d (groupTitle now d).
Proof.
  unfold firstMatchTitle, groupTitle.
  destruct (isToday now d), (isYesterday now d), (isSameWeek 1 d now),
    (isSameMonth d now); repeat split; intros; congruence.
Qed.

(** The buckets of a page, before the theorem on them is assembled. *)
Lemma groupPage_buckets (page : list Transaction) :
  let gs := groupPage now page in
  NoDup (map TransactionGroup.title gs)
  /\ (forall tx, In tx page ->
        In (titleOf now tx) (map TransactionGroup.title gs))
  /\ (forall g, In g gs -> bucketOf now page g)
  /\ Permutation (List.concat (map TransactionGroup.transactions gs)) page.
Proof.
  intros gs. subst gs. unfold groupPage.
  destruct (groupMap_of_page page) as (Hnd & Hcov & Hall).
  set (m := fold_left (addToGroupMap now) page []) in *.
  set (cmp := fun a b : TransactionGroup.t => _).
  pose proof (sort_perm cmp (Js.map_values m)) as Hperm.
  assert (Htitles : map TransactionGroup.title (Js.map_values m)
                    = map fst m).
  { unfold Js.map_values. rewrite map_map. apply map_ext_in.
    intros kv Hkv. rewrite Forall_forall in Hall.
    now destruct (Hall _ Hkv). }
  assert (Hbuckets : map TransactionGroup.transactions (Js.map_values m)
                     = map (bucket (titleOf now) page) (map fst m)).
  { unfold Js.map_values. rewrite !map_map. apply map_ext_in.
    intros kv Hkv. rewrite Forall_forall in Hall.
    destruct (Hall _ Hkv) as [Ht [Hb _]]. now rewrite Hb, Ht. }
  split; [|split; [|split]].
  - eapply Permutation_NoDup;
      [apply Permutation_map, Hperm|]. now rewrite Htitles.
  - intros tx Htx. eapply Permutation_in;
      [apply Permutation_map, Hperm|].
    rewrite Htitles. now apply Hcov.
  - intros g Hg. apply sort_In in Hg. unfold Js.map_values in Hg.
    apply in_map_iff in Hg. destruct Hg as (kv & <- & Hkv).
    rewrite Forall_forall in Hall. now destruct (Hall _ Hkv).
  - eapply perm_trans;
      [apply concat_map_perm, Permutation_sym, Hperm|].
    rewrite Hbuckets. now apply bucket_partition.
Qed.

(** C6. The buckets of a page partition it: titles are distinct and a
    transaction lies in the bucket of its title and in no other; the
    title is the one of the first test that holds; the buckets together
    hold the transactions of the page, each as often as the page does;
    a bucket lists its transactions in page order; and the buckets come
    sorted by the date of their first transaction, latest first. *)
Theorem date_bucketing_partition (page : list Transaction) :
  let gs := groupPage now page in
  NoDup (map TransactionGroup.title gs)
  /\ (forall tx, In tx page ->
        firstMatchTitle now (parseISO (date tx)) (titleOf now tx)
        /\ exists g, In g gs
                     /\ TransactionGroup.title g = titleOf now tx
                     /\ In tx (TransactionGroup.transactions g))
  /\ (forall g tx, In g gs ->
        (In tx (TransactionGroup.transactions g)
         <-> In tx page /\ titleOf now tx = TransactionGroup.title g))
  /\ Permutation (List.concat (map TransactionGroup.transactions gs)) page
  /\ (forall g, In g gs -> bucketOf now page g)
  /\ StronglySorted
       (fun a b => TransactionGroup.date a >= TransactionGroup.date b) gs.
Proof.
  intros gs.
  destruct (groupPage_buckets page) as (Hnd & Hcov & Hb & Hperm).
  fold gs in Hnd, Hcov, Hb, Hperm.
  assert (Hmem : forall g tx, In g gs ->
            (In tx (TransactionGroup.transactions g)
             <-> In tx page /\ titleOf now tx = TransactionGroup.title g)).
  { intros g tx Hg. destruct (Hb g Hg) as [E _]. rewrite E.
    unfold bucket. rewrite filter_In, String.eqb_eq. reflexivity. }
  split; [exact Hnd|]. split.
  { intros tx Htx. split; [apply groupTitle_firstMatch|].
    pose proof (Hcov tx Htx) as Hin. apply in_map_iff in Hin.
    destruct Hin as (g & Ht & Hg). exists g.
    split; [exact Hg|]. split; [exact Ht|].
    apply Hmem; [exact Hg|]. split; [exact Htx|now symmetry]. }
  split; [exact Hmem|]. split; [exact Hperm|]. split; [exact Hb|].
  subst gs. unfold groupPage.
  eapply StronglySorted_impl;
    [|apply (sort_sorted _ (fun g => - TransactionGroup.date g))].
  - simpl. intros. lia.
  - intros a b. simpl. lia.
Qed.
End Grouping.

(** ** Pagination *)

Section Pagination.
Context {host : Host}.
Variable now : Z.

Lemma paginatedTxs_from_first_page (processed : list Transaction) (p : Z) :
  1 <= p ->
  paginatedTxs processed p
  = firstn 10 (skipn (Z.to_nat ((p - 1) * 10)) processed).
Proof.
  intros Hp. unfold paginatedTxs, itemsPerPage.
  rewrite slice_nonneg by lia. reflexivity.
Qed.

(** What the list view shows is the current page, bucket after bucket. *)
Lemma visibleRows_page (processed : list Transaction) (p : Z) :
  groups (paginatedData now processed p)
  = groupPage now (paginatedTxs processed p)
  /\ Permutation (visibleRows now processed p) (paginatedTxs processed p).
Proof.
  assert (E : groups (paginatedData now processed p)
              = groupPage now (paginatedTxs processed p)).
  { unfold paginatedData. destruct processed as [|tx l]; [|reflexivity].
    unfold paginatedTxs, Js.slice. now rewrite skipn_nil, firstn_nil. }
  split; [exact E|].
  unfold visibleRows. rewrite E. apply groupPage_buckets.
Qed.

(** C5. With [n > 0] processed transactions and [p >= 1], the page holds
    the elements of indices [(p-1)*10] to [min (p*10) n - 1] of the
    processed list and these only, the groups shown are the buckets of
    that page, [totalPages] is [n / 10] rounded up, [totalItems] is [n]
    and the pages 1 to [totalPages] put end to end are the processed
    list; an empty processed list gives no group, no page and no item. *)
Theorem pagination_partition (processed : list Transaction) (p : Z) :
  let n := Z.of_nat (List.length processed) in
  let page := paginatedTxs processed p in
  let data := paginatedData now processed p in
  0 < n -> 1 <= p ->
  Z.of_nat (List.length page) = Z.max 0 (Z.min (p * 10) n - (p - 1) * 10)
  /\ (forall i, (p - 1) * 10 <= i < Z.min (p * 10) n ->
        nth_error page (Z.to_nat (i - (p - 1) * 10))
        = nth_error processed (Z.to_nat i))
  /\ groups data = groupPage now page
  /\ Permutation
       (List.concat (map TransactionGroup.transactions (groups data))) page
  /\ 10 * (totalPages data - 1) < n <= 10 * totalPages data
  /\ totalItems data = n
  /\ List.concat (map (fun k => paginatedTxs processed (Z.of_nat k))
                    (seq 1 (Z.to_nat (totalPages data)))) = processed
  /\ paginatedData now [] p = mkPaginatedData [] 0 0.
Proof.
  intros n page data Hn Hp.
  assert (Epage : page = firstn 10 (skipn (Z.to_nat ((p - 1) * 10)) processed))
    by now apply paginatedTxs_from_first_page.
  assert (Epages : totalPages data = Js.ceil_div n 10).
  { subst data. unfold paginatedData. fold n.
    replace (n =? 0) with false by (symmetry; apply Z.eqb_neq; lia).
    reflexivity. }
  pose proof (ceil_div_spec n 10 ltac:(lia)) as Hceil.
  split; [|split; [|split; [|split; [|split; [|split; [|split]]]]]].
  - rewrite Epage, length_firstn, length_skipn. fold n in Hn. lia.
  - intros i Hi. rewrite Epage, nth_error_firstn.
    replace (Z.to_nat (i - (p - 1) * 10) <? 10)%nat with true
      by (symmetry; apply Nat.ltb_lt; lia).
    rewrite nth_error_skipn. f_equal. lia.
  - apply visibleRows_page.
  - apply (visibleRows_page processed p).
  - now rewrite Epages.
  - subst data. unfold paginatedData. fold n.
    replace (n =? 0) with false by (symmetry; apply Z.eqb_neq; lia).
    reflexivity.
  - rewrite Epages, <- seq_shift, map_map.
    rewrite (map_ext _ (fun i => firstn 10 (skipn (i * 10) processed))).
    + apply chunks_concat. fold n in Hceil. lia.
    + intros i. rewrite paginatedTxs_from_first_page by lia.
      do 2 f_equal. lia.
  - reflexivity.
Qed.
End Pagination.

(** ** Strings *)

Lemma append_empty (a b : string) :
  (a ++ b)%string = "" -> a = "" /\ b = "".
Proof. destruct a; simpl; [tauto|discriminate]. Qed.

Lemma prefix_spec (needle s : string) :
  String.prefix needle s = true <-> exists after, s = (needle ++ after)%string.
Proof.
  revert s. induction needle as [|c needle IH]; intros s.
  - destruct s; simpl; split; eauto.
  - destruct s as [|c' s]; simpl.
    + split; [discriminate|]. intros [after E]. discriminate.
    + destruct (ascii_dec c c') as [<-|Hne].
      * rewrite IH. split; intros [after E]; exists after; congruence.
      * split; [discriminate|]. intros [after E]. congruence.
Qed.

(** [includes] decides the substring relation. *)
Lemma includes_spec (s needle : string) :
  Js.includes s needle = true <-> isSubstring needle s.
Proof.
  unfold isSubstring. induction s as [|c s IH].
  - simpl. rewrite String.eqb_eq. split.
    + intros ->. now exists "", "".
    + intros (before & after & E). symmetry in E.
      apply append_empty in E. destruct E as [_ E].
      now apply append_empty in E.
  - cbn [Js.includes]. rewrite Bool.orb_true_iff, IH, prefix_spec. split.
    + intros [[after E]|(before & after & E)].
      * now exists "", after.
      * exists (String c before), after. simpl. now rewrite E.
    + intros (before & after & E). destruct before as [|c' before].
      * left. now exists after.
      * right. exists before, after. simpl in E. congruence.
Qed.

Lemma includes_empty (needle : string) :
  Js.includes "" needle = true <-> needle = "".
Proof. simpl. apply String.eqb_eq. Qed.

(** ** Filtering *)

Section Filtering.
Context {host : Host}.
Variable now : Z.

Lemma type_test (filters : Filters.t) (tx : Transaction) :
  let type_ := FilterType_value (Filters.type filters) in
  negb (type_ =? "all")%string && negb (type tx =? type_)%string = false
  <-> typeOk filters tx.
Proof.
  unfold typeOk. destruct (Filters.type filters); simpl.
  - split; [now left|reflexivity].
  - destruct (String.eqb_spec (type tx) "income"); simpl; split;
      try tauto; try discriminate.
    intros [?|?]; [discriminate|contradiction].
  - destruct (String.eqb_spec (type tx) "expense"); simpl; split;
      try tauto; try discriminate.
    intros [?|?]; [discriminate|contradiction].
Qed.

Lemma category_test (filters : Filters.t) (tx : Transaction) :
  let category_ := Filters.category filters in
  negb (category_ =? "all")%string
  && negb (category tx =? category_)%string = false
  <-> categoryOk filters tx.
Proof.
  unfold categoryOk. cbv zeta.
  destruct (String.eqb_spec (Filters.category filters) "all");
    destruct (String.eqb_spec (category tx) (Filters.category filters));
    simpl; split; try tauto; try discriminate.
Qed.

Lemma search_test (filters : Filters.t) (tx : Transaction) :
  let searchTerm := Filters.searchTerm filters in
  negb (searchTerm =? "")%string
  && (let searchLower := toLowerCase searchTerm in
      let categoryMatch :=
        Js.includes (toLowerCase (category tx)) searchLower in
      let descriptionMatch :=
        match description tx with
        | None => false
        | Some d =>
            negb (d =? "")%string
            && Js.includes (toLowerCase d) searchLower
        end in
      negb categoryMatch && negb descriptionMatch) = false
  <-> searchOk filters tx.
Proof.
  unfold searchOk. cbv zeta. rewrite <- includes_spec.
  setoid_rewrite <- includes_spec.
  set (term := Filters.searchTerm filters).
  destruct (String.eqb_spec term "") as [Hempty|Hterm]; simpl.
  - split; [now left|reflexivity].
  - destruct (Js.includes (toLowerCase (category tx)) (toLowerCase term))
      eqn:Hcat; simpl.
    + split; [now right; left|reflexivity].
    + destruct (description tx) as [d|]; simpl.
      * destruct (String.eqb_spec d "") as [Hd|Hd]; simpl.
        -- split; [discriminate|].
           intros [H|[H|(d' & E & Hinc)]];
             [exfalso; exact (Hterm H)|fold term in H; congruence|].
           injection E as <-. subst d. exfalso. apply Hterm.
           replace (toLowerCase "") with "" in Hinc
             by (symmetry; now apply toLowerCase_empty).
           apply includes_empty in Hinc.
           exact (proj1 (toLowerCase_empty term) Hinc).
        -- destruct (Js.includes (toLowerCase d) (toLowerCase term))
             eqn:Hdesc; simpl.
           ++ split; [|reflexivity]. intros _. right. right.
              now exists d.
           ++ split; [discriminate|].
              intros [H|[H|(d' & E & Hinc)]];
                [exfalso; exact (Hterm H)|fold term in H; congruence|].
              injection E as <-. fold term in Hinc. congruence.
      * split; [discriminate|].
        intros [H|[H|(d' & E & _)]];
          [exfalso; exact (Hterm H)|fold term in H; congruence
          |discriminate].
Qed.

Lemma passesFilters_spec (filters : Filters.t) (tx : Transaction) :
  Filters.dateRange filters <> range_custom ->
  (passesFilters now filters tx = true
   <-> typeOk filters tx /\ categoryOk filters tx /\ searchOk filters tx
       /\ dateOk now tx (Filters.dateRange filters)).
Proof.
  intros Hcustom. unfold passesFilters.
  pose proof (type_test filters tx) as Ht.
  pose proof (category_test filters tx) as Hc.
  pose proof (search_test filters tx) as Hs.
  cbv zeta in Ht, Hc, Hs |- *.
  destruct (negb (FilterType_value (Filters.type filters) =? "all")%string
            && _);
    [split; [discriminate|]; intros (H & _); apply Ht in H; discriminate|].
  destruct (negb (Filters.category filters =? "all")%string && _);
    [split; [discriminate|]; intros (_ & H & _); apply Hc in H;
     discriminate|].
  destruct (negb (Filters.searchTerm filters =? "")%string && _);
    [split; [discriminate|]; intros (_ & _ & H & _); apply Hs in H;
     discriminate|].
  assert (Hd : match Filters.dateRange filters with
               | range_all => true
               | range_today => isToday now (parseISO (date tx))
               | range_week => isSameWeek 0 (parseISO (date tx)) now
               | range_month => isSameMonth (parseISO (date tx)) now
               | range_custom => true
               end = true <-> dateOk now tx (Filters.dateRange filters)).
  { destruct (Filters.dateRange filters); try contradiction;
      (split; [intros H; now constructor|now inversion 1]). }
  rewrite Hd. split.
  - intros H. repeat split; try exact H;
      [now apply Ht|now apply Hc|now apply Hs].
  - now intros (_ & _ & _ & H).
Qed.

(** Under [range_custom] the date test lets every date through. *)
Lemma custom_range_passes (filters : Filters.t) (tx : Transaction) :
  Filters.dateRange filters = range_custom ->
  (passesFilters now filters tx = true
   <-> typeOk filters tx /\ categoryOk filters tx /\ searchOk filters tx).
Proof.
  intros Hcustom. unfold passesFilters.
  pose proof (type_test filters tx) as Ht.
  pose proof (category_test filters tx) as Hc.
  pose proof (search_test filters tx) as Hs.
  cbv zeta in Ht, Hc, Hs |- *. rewrite Hcustom.
  destruct (negb (FilterType_value (Filters.type filters) =? "all")%string
            && _);
    [split; [discriminate|]; intros (H & _); apply Ht in H; discriminate|].
  destruct (negb (Filters.category filters =? "all")%string && _);
    [split; [discriminate|]; intros (_ & H & _); apply Hc in H;
     discriminate|].
  destruct (negb (Filters.searchTerm filters =? "")%string && _);
    [split; [discriminate|]; intros (_ & _ & H); apply Hs in H;
     discriminate|].
  split; [|reflexivity]. intros _.
  repeat split; [now apply Ht|now apply Hc|now apply Hs].
Qed.

(** C3, as the code has it.  Once the store has loaded, a transaction is
    in the processed list exactly when it is one of the transactions and
    meets the type, category, search and date conditions together, the
    date condition being void under the custom range; while the store is
    loading the processed list is empty, whatever the filters. *)
Theorem filtering_conjunction (transactions : list Transaction)
    (filters : Filters.t) (tx : Transaction) :
  (In tx (processedTransactions now false transactions filters)
   <-> In tx transactions
       /\ typeOk filters tx /\ categoryOk filters tx
       /\ searchOk filters tx
       /\ (Filters.dateRange filters = range_custom
           \/ dateOk now tx (Filters.dateRange filters)))
  /\ processedTransactions now true transactions filters = [].
Proof.
  split; [|reflexivity].
  assert (Hpass : passesFilters now filters tx = true
                  <-> typeOk filters tx /\ categoryOk filters tx
                      /\ searchOk filters tx
                      /\ (Filters.dateRange filters = range_custom
                          \/ dateOk now tx (Filters.dateRange filters))).
  { destruct (Filters.dateRange filters) eqn:Hr.
    1-4: rewrite passesFilters_spec by (rewrite Hr; discriminate);
         rewrite Hr; split;
         [intros (H1 & H2 & H3 & H4); auto
         |intros (H1 & H2 & H3 & [H4|H4]); [discriminate|auto]].
    rewrite (custom_range_passes _ _ Hr). split.
    - intros (H1 & H2 & H3). auto.
    - intros (H1 & H2 & H3 & _). auto. }
  unfold processedTransactions. cbn [orb].
  destruct transactions as [|tx0 l].
  - simpl. tauto.
  - replace (Z.of_nat (List.length (tx0 :: l)) =? 0) with false
      by reflexivity.
    rewrite sort_In, filter_In, Hpass. reflexivity.
Qed.
End Filtering.

(** ** CSV export *)

Lemma append_assoc (s1 s2 s3 : string) :
  ((s1 ++ s2) ++ s3 = s1 ++ (s2 ++ s3))%string.
Proof. induction s1 as [|c s1 IH]; simpl; [reflexivity|now rewrite IH]. Qed.

Section CsvExport.
Context {host : Host}.
Variable now : Z.


(** Escaping loses nothing: the text is read back from its escaped
    form. *)
Lemma unescape_double_quotes (s : string) :
  unescape (Js.double_quotes s) = s.
Proof.
  induction s as [|c s IH]; [reflexivity|].
  cbn [Js.double_quotes].
  destruct (Ascii.eqb c Js.dquote) eqn:E.
  - apply Ascii.eqb_eq in E. subst c.
    cbn [unescape]. rewrite Ascii.eqb_refl. cbn [andb]. now rewrite IH.
  - destruct (Js.double_quotes s) as [|c' r] eqn:D.
    + cbn [unescape] in *. now rewrite <- IH.
    + cbn [unescape]. rewrite E. cbn [andb]. f_equal. exact IH.
Qed.

Lemma exportCSV_content (tx : Transaction) (l : list Transaction) :
  exportCSV now (tx :: l)
  = ExportFile (csvOf (tx :: l))
      ("transactions_" ++ format now "yyyy-MM-dd" ++ ".csv")%string
      "ส่งออกข้อมูลสำเร็จ".
Proof.
  unfold exportCSV, csvOf, csvHeader.
  replace (Z.of_nat (List.length (tx :: l)) =? 0) with false by reflexivity.
  cbn [map Js.join]. fold headerLine.
  destruct (map csvRow l); now rewrite append_assoc.
Qed.

End CsvExport.

(** ** The whole pipeline *)

Section Pipeline.
Context {host : Host}.
Variable now : Z.

Lemma visibleRows_incl (processed : list Transaction) (p : Z)
    (tx : Transaction) :
  In tx (visibleRows now processed p) -> In tx processed.
Proof.
  intros Hin.
  eapply Permutation_in in Hin; [|apply visibleRows_page].
  unfold paginatedTxs in Hin. now apply slice_incl in Hin.
Qed.

(** C2, as the code has it.  The export writes the rows of the whole
    processed list, in its order, whatever the page shown; each row of
    the list view is one of them; on an empty processed list nothing
    is written and an error toast is shown. *)
Theorem exportCSV_processed_rows (processed : list Transaction) (p : Z) :
  match processed with
  | [] => exportCSV now processed = ExportError "ไม่มีข้อมูลที่จะส่งออก"
  | _ :: _ =>
      exportCSV now processed
      = ExportFile (csvOf processed)
          ("transactions_" ++ format now "yyyy-MM-dd" ++ ".csv")%string
          "ส่งออกข้อมูลสำเร็จ"
  end
  /\ (forall tx, In tx (visibleRows now processed p) -> In tx processed)
  /\ (List.length (visibleRows now processed p) <= 10)%nat.
Proof.
  split; [|split].
  - destruct processed as [|tx l]; [reflexivity|].
    apply exportCSV_content.
  - intros tx. apply visibleRows_incl.
  - rewrite (Permutation_length (proj2 (visibleRows_page now processed p))).
    unfold paginatedTxs, Js.slice. rewrite length_firstn.
    set (len := Z.of_nat (List.length processed)).
    unfold itemsPerPage.
    destruct ((p - 1) * 10 <? 0) eqn:E1;
      destruct ((p - 1) * 10 + 10 <? 0) eqn:E2;
      try apply Z.ltb_lt in E1; try apply Z.ltb_ge in E1;
      try apply Z.ltb_lt in E2; try apply Z.ltb_ge in E2; lia.
Qed.

(** C1, as the code has it.  Once the store has loaded, the processed
    list is the filtered list sorted, the page is its slice of ten, and
    the groups shown are the buckets of that page: they hold the
    transactions of the page, each as often as the page does, and every
    bucket keeps the order of the page among its own transactions. *)
Theorem pipeline_filter_sort_paginate_group
    (transactions : list Transaction) (filters : Filters.t) (p : Z) :
  let filtered := filter (passesFilters now filters) transactions in
  let sorted := Js.sort (sortComparator (Filters.sortOption filters))
                  filtered in
  let page := Js.slice sorted ((p - 1) * 10) ((p - 1) * 10 + 10) in
  let shown := groups (paginatedData now sorted p) in
  processedTransactions now false transactions filters = sorted
  /\ shown = groupPage now page
  /\ Permutation (List.concat (map TransactionGroup.transactions shown))
       page
  /\ (forall g, In g shown ->
        TransactionGroup.transactions g
        = bucket (titleOf now) page (TransactionGroup.title g)).
Proof.
  intros filtered sorted page shown.
  assert (Eshown : shown = groupPage now page)
    by apply (visibleRows_page now sorted p).
  split; [|split; [exact Eshown|split]].
  - unfold processedTransactions. cbn [orb].
    destruct transactions as [|tx l]; reflexivity.
  - apply (visibleRows_page now sorted p).
  - intros g Hg. rewrite Eshown in Hg.
    now apply (groupPage_buckets now page).
Qed.
End Pipeline.

(** The rows shown can differ in order from the page slice: under
    [oldest] the page is January then March, the list view shows the
    bucket of today first. *)
Lemma grouping_reorders_page :
  ~ groupingKeepsPageOrder (host := Utc.host) Utc.clock
      (processedTransactions (host := Utc.host) Utc.clock false
         januaryAndMarch (noFilter oldest)) 1.
Proof. unfold groupingKeepsPageOrder. vm_compute. discriminate. Qed.

(** The conjunction of the four conditions does not decide membership
    for every state: while the store is loading, a transaction that
    meets them all is not in the processed list; and under the custom
    range, for which no date condition is given, a transaction is in
    it. *)
Lemma filtering_fails_loading_and_custom :
  ~ filteringIsConjunction (host := Utc.host) Utc.clock true januaryAndMarch
      (noFilter newest) (Utc.tx "a" "income" "salary" "2025-01-05" 100)
  /\ ~ filteringIsConjunction (host := Utc.host) Utc.clock false
        januaryAndMarch (Filters.mk type_all "all" range_custom newest "")
        (Utc.tx "a" "income" "salary" "2025-01-05" 100).
Proof.
  unfold filteringIsConjunction. split.
  - intros [_ H].
    assert (Hin : In (Utc.tx "a" "income" "salary" "2025-01-05" 100)
                    (processedTransactions (host := Utc.host) Utc.clock true
                       januaryAndMarch (noFilter newest))).
    { apply H. split; [left; reflexivity|].
      split; [left; reflexivity|]. split; [left; reflexivity|].
      split; [left; reflexivity|constructor]. }
    destruct Hin.
  - intros [H _].
    assert (Hin : In (Utc.tx "a" "income" "salary" "2025-01-05" 100)
                    (processedTransactions (host := Utc.host) Utc.clock
                       false januaryAndMarch
                       (Filters.mk type_all "all" range_custom newest "")))
      by (vm_compute; right; left; reflexivity).
    destruct (H Hin) as (_ & _ & _ & _ & Hdate). inversion Hdate.
Qed.

(** With eleven processed transactions the list view shows ten rows and
    the export writes eleven. *)
Lemma export_exceeds_visible_rows :
  ~ exportsVisibleRows (host := Utc.host) Utc.clock
      (processedTransactions (host := Utc.host) Utc.clock false
         (sameDayTransactions 11) (noFilter newest)) 1.
Proof.
  unfold exportsVisibleRows. intros (filename & toast & H).
  vm_compute in H. discriminate H.
Qed.

(** ** The category route *)

Section CategoryRoute.
Import CategoriesRoute.
Context {Row Exn Request : Type}.
Variable world : World Row Exn.

(** Every execution of the handler, case by case. *)
Lemma run_cases (req : Request) :
  run world req
  = match clientCreation world with
    | inl e => ([CreateClient; logged e], Normal errorResponse)
    | inr _ =>
        match queryAnswer world allCategoriesByName with
        | inl e =>
            ([CreateClient; RunQuery allCategoriesByName; logged e],
             Normal errorResponse)
        | inr r =>
            match error r with
            | Some e =>
                ([CreateClient; RunQuery allCategoriesByName; logged e],
                 Normal errorResponse)
            | None =>
                ([CreateClient; RunQuery allCategoriesByName],
                 Normal (mkResponse
                           (Rows match data r with
                                 | Some rows => rows
                                 | None => []
                                 end) 200))
            end
        end
    end.
Proof.
  unfold run, GET, createSupabaseServerClient, await_query.
  change (order (select (from "categories") "*") "name")
    with allCategoriesByName.
  destruct (clientCreation world) as [e|client]; [reflexivity|].
  destruct (queryAnswer world allCategoriesByName) as [e|r];
    [reflexivity|].
  cbv [try_catch bind emit ret throw console_error json json_status app
       errorResponse logged].
  destruct (error r) as [e|]; reflexivity.
Qed.

(** C7, as the code has it.  The handler does not look at the request;
    it issues the one query, all columns of the categories ordered by
    name, once the client is there and no query when creating the
    client fails; and when nothing fails it answers with the rows of
    the query as they are, or with the empty list when the query has
    no data, having done nothing but create the client and run the
    query. *)
Theorem GET_pass_through (req : Request) :
  (forall req' : Request, run world req' = run world req)
  /\ queries (fst (run world req))
     = match clientCreation world with
       | inl _ => []
       | inr _ => [allCategoriesByName]
       end
  /\ (failure world = None ->
      exists r,
        queryAnswer world allCategoriesByName = inr r
        /\ run world req
           = ([CreateClient; RunQuery allCategoriesByName],
              Normal (mkResponse
                        (Rows match data r with
                              | Some rows => rows
                              | None => []
                              end) 200))).
Proof.
  split; [|split].
  - intros req'. now rewrite !run_cases.
  - rewrite run_cases.
    destruct (clientCreation world) as [e|client]; [reflexivity|].
    destruct (queryAnswer world _) as [e|r]; [reflexivity|].
    destruct (error r); reflexivity.
  - intros Hok. rewrite run_cases. unfold failure in Hok.
    fold allCategoriesByName in Hok.
    destruct (clientCreation world) as [e|client];
      [discriminate|].
    destruct (queryAnswer world _) as [e|r]; [discriminate|].
    exists r. split; [reflexivity|]. now rewrite Hok.
Qed.

(** C10. Whatever fails, creating the client, the query rejecting or
    its result carrying an error, the handler returns normally: the
    failure is logged and the answer is the error object with status
    500; and the status is 500 only when something failed. *)
Theorem GET_error_atomicity (req : Request) :
  exists log resp,
    run world req = (log, Normal resp)
    /\ (status resp = 500 <-> failure world <> None)
    /\ (forall e, failure world = Some e ->
          resp = errorResponse
          /\ last log CreateClient = logged e).
Proof.
  rewrite run_cases. unfold failure. fold allCategoriesByName.
  destruct (clientCreation world) as [e|client].
  - eexists _, _. split; [reflexivity|]. split.
    + split; [discriminate|reflexivity].
    + intros e' [= <-]. split; reflexivity.
  - destruct (queryAnswer world _) as [e|r].
    + eexists _, _. split; [reflexivity|]. split.
      * split; [discriminate|reflexivity].
      * intros e' [= <-]. split; reflexivity.
    + destruct (error r) as [e|].
      * eexists _, _. split; [reflexivity|]. split.
        -- split; [discriminate|reflexivity].
        -- intros e' [= <-]. split; reflexivity.
      * eexists _, _. split; [reflexivity|]. split.
        -- split; [discriminate|]. intros H. now contradiction H.
        -- discriminate.
Qed.
End CategoryRoute.

(** When the client cannot be created the handler issues no query. *)
Lemma no_query_without_client :
  ~ issuesExactlyOneQuery noClientWorld tt.
Proof. unfold issuesExactlyOneQuery. vm_compute. discriminate. Qed.

(** ** Page buttons and the current page *)

Lemma pageToShow_bounds (totalPages_ currentPage_ i : Z) :
  1 <= totalPages_ -> 0 <= i < Z.min 5 totalPages_ ->
  1 <= pageToShow totalPages_ currentPage_ i <= totalPages_.
Proof.
  intros Htp Hi. unfold pageToShow.
  destruct (totalPages_ <=? 5) eqn:E1; [lia|]. apply Z.leb_gt in E1.
  destruct (currentPage_ <=? 3) eqn:E2; [lia|]. apply Z.leb_gt in E2.
  destruct (currentPage_ >=? totalPages_ - 2) eqn:E3; [lia|].
  rewrite Z.geb_leb in E3. apply Z.leb_gt in E3. lia.
Qed.

Lemma pageButtons_In (totalPages_ currentPage_ page : Z) :
  In page (pageButtons totalPages_ currentPage_)
  <-> exists i, 0 <= i < Z.min 5 totalPages_
                /\ page = pageToShow totalPages_ currentPage_ i.
Proof.
  unfold pageButtons. rewrite in_map_iff. split.
  - intros (i & <- & Hi). apply in_seq in Hi. exists (Z.of_nat i).
    split; [lia|reflexivity].
  - intros (i & Hi & ->). exists (Z.to_nat i). split.
    + f_equal. lia.
    + apply in_seq. lia.
Qed.

(** X1. Whatever the current page, even one past the end, every page
    button carries a page between 1 and [totalPages]. *)
Theorem page_buttons_in_range (totalPages_ currentPage_ page : Z) :
  1 <= totalPages_ ->
  In page (pageButtons totalPages_ currentPage_) ->
  1 <= page <= totalPages_.
Proof.
  intros Htp Hin. apply pageButtons_In in Hin.
  destruct Hin as (i & Hi & ->). now apply pageToShow_bounds.
Qed.

(** X2. When the current page is one of the pages, the buttons carry
    [min 5 totalPages] consecutive pages, in increasing order, and the
    current page is one of them. *)
Theorem page_buttons_window (totalPages_ currentPage_ : Z) :
  1 <= currentPage_ <= totalPages_ ->
  exists first,
    pageButtons totalPages_ currentPage_
    = map (fun i => first + Z.of_nat i)
        (seq 0 (Z.to_nat (Z.min 5 totalPages_)))
    /\ first <= currentPage_ < first + Z.min 5 totalPages_.
Proof.
  intros Hp. unfold pageButtons, pageToShow.
  destruct (totalPages_ <=? 5) eqn:E1.
  { apply Z.leb_le in E1. exists 1. split; [|lia].
    apply map_ext. intros i. lia. }
  apply Z.leb_gt in E1.
  destruct (currentPage_ <=? 3) eqn:E2.
  { apply Z.leb_le in E2. exists 1. split; [|lia].
    apply map_ext. intros i. lia. }
  apply Z.leb_gt in E2.
  destruct (currentPage_ >=? totalPages_ - 2) eqn:E3.
  - rewrite Z.geb_leb in E3. apply Z.leb_le in E3.
    exists (totalPages_ - 4). split; [reflexivity|lia].
  - rewrite Z.geb_leb in E3. apply Z.leb_gt in E3.
    exists (currentPage_ - 2). split; [reflexivity|lia].
Qed.

Section ViewFacts.
Context {host : Host}.
Variable now : Z.

Lemma totalPages_paginatedData (processed : list Transaction) (p : Z) :
  totalPages (paginatedData now processed p)
  = if Z.of_nat (List.length processed) =? 0 then 0
    else Js.ceil_div (Z.of_nat (List.length processed)) 10.
Proof.
  unfold paginatedData.
  now destruct (Z.of_nat (List.length processed) =? 0).
Qed.

Lemma totalPages_bounds (processed : list Transaction) (p : Z) :
  let n := Z.of_nat (List.length processed) in
  0 < n ->
  10 * (totalPages (paginatedData now processed p) - 1) < n
  <= 10 * totalPages (paginatedData now processed p).
Proof.
  intros n Hn. rewrite totalPages_paginatedData. fold n.
  replace (n =? 0) with false by (symmetry; apply Z.eqb_neq; lia).
  apply ceil_div_spec. lia.
Qed.

Lemma page_length (processed : list Transaction) (p : Z) :
  1 <= p ->
  Z.of_nat (List.length (paginatedTxs processed p))
  = Z.max 0 (Z.min (p * 10) (Z.of_nat (List.length processed))
             - (p - 1) * 10).
Proof.
  intros Hp. rewrite paginatedTxs_from_first_page by exact Hp.
  rewrite length_firstn, length_skipn. lia.
Qed.

(** X3. The line under the list tells the truth on every page from 1 to
    [totalPages]: the rows shown are as many as the range it prints, and
    that range lies within the processed list. *)
Theorem shown_range_counts_rows (processed : list Transaction) (p : Z) :
  let n := Z.of_nat (List.length processed) in
  0 < n -> 1 <= p <= totalPages (paginatedData now processed p) ->
  Z.of_nat (List.length (visibleRows now processed p))
  = snd (shownRange p n) - fst (shownRange p n) + 1
  /\ 1 <= fst (shownRange p n) <= snd (shownRange p n)
  /\ snd (shownRange p n) <= n.
Proof.
  intros n Hn Hp.
  pose proof (totalPages_bounds processed p Hn) as Htp. fold n in Htp.
  rewrite (Permutation_length (proj2 (visibleRows_page now processed p))).
  rewrite page_length by lia. fold n.
  unfold shownRange, itemsPerPage. cbn [fst snd]. lia.
Qed.

(** X4. A current page past the last one shows no row at all, although
    the processed list is not empty, and the line under the list prints a
    first item beyond the last. *)
Theorem page_past_the_end_is_empty (processed : list Transaction) (p : Z) :
  let n := Z.of_nat (List.length processed) in
  0 < n -> totalPages (paginatedData now processed p) < p ->
  groups (paginatedData now processed p) = []
  /\ visibleRows now processed p = []
  /\ snd (shownRange p n) < fst (shownRange p n).
Proof.
  intros n Hn Hp.
  pose proof (totalPages_bounds processed p Hn) as Htp. fold n in Htp.
  assert (Hpage : paginatedTxs processed p = []).
  { apply length_zero_iff_nil.
    pose proof (page_length processed p ltac:(lia)) as Hlen.
    fold n in Hlen. lia. }
  assert (Hgroups : groups (paginatedData now processed p) = []).
  { rewrite (proj1 (visibleRows_page now processed p)), Hpage.
    reflexivity. }
  split; [exact Hgroups|]. split.
  - unfold visibleRows. now rewrite Hgroups.
  - unfold shownRange, itemsPerPage. cbn [fst snd]. lia.
Qed.

Variable transactions : list Transaction.

Lemma totalPagesOf_filters (s s' : View.t) :
  View.filters s = View.filters s' ->
  totalPagesOf now transactions s = totalPagesOf now transactions s'.
Proof.
  intros E. unfold totalPagesOf, processedOf.
  now rewrite !totalPages_paginatedData, E.
Qed.

(** X5. Starting from the initial view and with the store unchanged, no
    sequence of filter changes, resets and clicks on the arrows and the
    page buttons leaves the pages: the current page stays between 1 and
    [totalPages] (it is 1 when there is no page), and whenever some
    transaction passes the filters the page shown has a row. *)
Theorem current_page_stays_in_range (s : View.t) :
  reachable now transactions s ->
  1 <= View.currentPage s
  /\ (View.currentPage s = 1
      \/ View.currentPage s <= totalPagesOf now transactions s)
  /\ (processedOf now transactions s <> [] ->
      paginatedTxs (processedOf now transactions s) (View.currentPage s)
      <> []).
Proof.
  intros Hreach.
  assert (Hinv : 1 <= View.currentPage s
                 /\ (View.currentPage s = 1
                     \/ View.currentPage s
                        <= totalPagesOf now transactions s)).
  { induction Hreach as [|s s' _ [IH1 IH2] Hstep].
    - simpl. lia.
    - destruct Hstep as [u s _|s|s [_ Htp] Hne|s [_ Htp] Hlt|s page [_ Htp] Hin].
      + simpl. lia.
      + simpl. lia.
      + rewrite <- (totalPagesOf_filters s (previousPage s) eq_refl).
        simpl. lia.
      + rewrite <- (totalPagesOf_filters s (nextPage _ s) eq_refl).
        simpl. lia.
      + rewrite <- (totalPagesOf_filters s (goToPage page s) eq_refl).
        simpl. apply pageButtons_In in Hin.
        destruct Hin as (i & Hi & ->).
        assert (Hone : 1 <= totalPagesOf now transactions s) by lia.
        pose proof (pageToShow_bounds _ (View.currentPage s) i Hone Hi).
        lia. }
  destruct Hinv as [H1 H2]. split; [exact H1|]. split; [exact H2|].
  intros Hne Hnil.
  assert (Hn : 0 < Z.of_nat (List.length (processedOf now transactions s))).
  { destruct (processedOf now transactions s); [congruence|simpl; lia]. }
  pose proof (totalPages_bounds _ (View.currentPage s) Hn) as Htp.
  fold (totalPagesOf now transactions s) in Htp.
  pose proof (page_length (processedOf now transactions s)
                (View.currentPage s) H1) as Hlen.
  rewrite Hnil in Hlen. simpl in Hlen. lia.
Qed.

End ViewFacts.

(** ** The category list *)

Lemma filter_filter {A : Type} (f g : A -> bool) (l : list A) :
  filter f (filter g l) = filter (fun x => g x && f x) l.
Proof.
  induction l as [|x l IH]; simpl; [reflexivity|].
  destruct (g x); simpl; [destruct (f x)|]; now rewrite IH.
Qed.

Lemma JsSet_has_In (s : list string) (x : string) :
  JsSet.has s x = true <-> In x s.
Proof.
  unfold JsSet.has. rewrite existsb_exists. split.
  - intros (y & Hy & E). apply String.eqb_eq in E. now subst.
  - intros H. exists x. split; [exact H|apply String.eqb_refl].
Qed.

Lemma JsSet_has_app (s : list string) (x y : string) :
  JsSet.has (s ++ [x]) y = JsSet.has s y || (x =? y)%string.
Proof.
  unfold JsSet.has. rewrite existsb_app. simpl. now rewrite Bool.orb_false_r.
Qed.

Lemma firstOccurrences_In (l : list string) (x : string) :
  In x (firstOccurrences l) <-> In x l.
Proof.
  induction l as [|y l IH]; simpl; [reflexivity|].
  rewrite filter_In, IH. split.
  - intros [E|[H _]]; auto.
  - intros [E|H]; [now left|].
    destruct (String.eqb_spec x y) as [->|Hne]; [now left|].
    right. split; [exact H|reflexivity].
Qed.

Lemma firstOccurrences_NoDup (l : list string) : NoDup (firstOccurrences l).
Proof.
  induction l as [|y l IH]; simpl; constructor.
  - rewrite filter_In, String.eqb_refl. intros [_ H]. discriminate.
  - now apply NoDup_filter.
Qed.

(** The set filled from an array, starting from the values [acc]. *)
Lemma JsSet_fold (l acc : list string) :
  fold_left JsSet.add l acc
  = acc ++ filter (fun y => negb (JsSet.has acc y)) (firstOccurrences l).
Proof.
  revert acc. induction l as [|x l IH]; intros acc; simpl.
  - now rewrite app_nil_r.
  - rewrite IH. unfold JsSet.add.
    destruct (JsSet.has acc x) eqn:Hx; simpl.
    + f_equal. rewrite filter_filter. apply filter_ext. intros y.
      destruct (String.eqb_spec y x) as [->|Hne]; simpl; [|reflexivity].
      now rewrite Hx.
    + rewrite <- app_assoc. simpl. do 2 f_equal.
      rewrite filter_filter. apply filter_ext. intros y.
      rewrite JsSet_has_app, (String.eqb_sym x y), Bool.negb_orb.
      apply Bool.andb_comm.
Qed.

Lemma JsSet_of_array (l : list string) :
  JsSet.of_array l = firstOccurrences l.
Proof.
  unfold JsSet.of_array. rewrite JsSet_fold. simpl.
  induction (firstOccurrences l) as [|x l' IH]; simpl; congruence.
Qed.

(** X6. The category list starts with the entry for all categories;
    after it come the categories of the transactions, each once, in the
    order in which they first occur in the store. *)
Theorem uniqueCategories_first_occurrences
    (transactions : list Transaction) :
  exists cats,
    uniqueCategories transactions = "all" :: cats
    /\ cats = firstOccurrences (map category transactions)
    /\ NoDup cats
    /\ (forall c, In c cats
                  <-> exists tx, In tx transactions /\ category tx = c).
Proof.
  exists (firstOccurrences (map category transactions)).
  split; [|split; [reflexivity|split]].
  - unfold uniqueCategories. destruct transactions as [|tx l];
      [reflexivity|].
    replace (Z.of_nat (List.length (tx :: l)) =? 0) with false
      by reflexivity.
    now rewrite JsSet_of_array.
  - apply firstOccurrences_NoDup.
  - intros c. rewrite firstOccurrences_In, in_map_iff.
    split; intros (tx & H1 & H2); exists tx; tauto.
Qed.

Lemma uniqueCategories_cases (transactions : list Transaction) (c : string) :
  In c (uniqueCategories transactions) ->
  c = "all" \/ exists tx, In tx transactions /\ category tx = c.
Proof.
  unfold uniqueCategories.
  destruct (Z.of_nat (List.length transactions) =? 0).
  - intros [<-|[]]. now left.
  - intros [<-|H]; [now left|]. right.
    rewrite JsSet_of_array, firstOccurrences_In, in_map_iff in H.
    destruct H as (tx & H1 & H2). now exists tx.
Qed.

(** X22. The entries of the category list are distinct exactly when no
    transaction has a category spelled like the entry for all
    categories. *)
Theorem uniqueCategories_distinct (transactions : list Transaction) :
  NoDup (uniqueCategories transactions)
  <-> ~ exists tx, In tx transactions /\ category tx = "all".
Proof.
  unfold uniqueCategories.
  destruct transactions as [|tx0 l].
  - simpl. split.
    + intros _ (tx & [] & _).
    + intros _. repeat constructor. intros [].
  - replace (Z.of_nat (List.length (tx0 :: l)) =? 0) with false
      by reflexivity.
    rewrite JsSet_of_array, NoDup_cons_iff, firstOccurrences_In, in_map_iff.
    split.
    + intros [Hnot _] (tx & Hin & E). apply Hnot. now exists tx.
    + intros Hnot. split; [|apply firstOccurrences_NoDup].
      intros (tx & E & Hin). apply Hnot. now exists tx.
Qed.

Section CategoryChoice.
Context {host : Host}.
Variable now : Z.

Lemma passesFilters_category_only (c : string) (o : SortOption)
    (tx : Transaction) :
  c <> "all" ->
  passesFilters now (Filters.mk type_all c range_all o "") tx
  = (category tx =? c)%string.
Proof.
  intros Hc. unfold passesFilters. simpl.
  apply String.eqb_neq in Hc. rewrite Hc. simpl.
  now destruct (category tx =? c)%string.
Qed.

(** X7. Choosing an entry of the category list other than the first,
    with no other filter set, lists the transactions of that category
    and no other, and there is at least one. *)
Theorem offered_category_lists_its_transactions
    (transactions : list Transaction) (c : string) (o : SortOption) :
  In c (uniqueCategories transactions) -> c <> "all" ->
  let processed :=
    processedTransactions now false transactions
      (Filters.mk type_all c range_all o "") in
  processed <> []
  /\ (forall tx, In tx processed
                 <-> In tx transactions /\ category tx = c).
Proof.
  intros Hin Hc processed.
  assert (Hmem : forall tx, In tx processed
                            <-> In tx transactions /\ category tx = c).
  { intros tx. subst processed. unfold processedTransactions. cbn [orb].
    destruct transactions as [|tx0 l]; [simpl; tauto|].
    replace (Z.of_nat (List.length (tx0 :: l)) =? 0) with false
      by reflexivity.
    rewrite sort_In, filter_In, (passesFilters_category_only _ _ _ Hc).
    now rewrite String.eqb_eq. }
  split; [|exact Hmem].
  destruct (uniqueCategories_cases transactions c Hin) as [E|(tx & H1 & H2)];
    [contradiction|].
  intros Hnil. assert (H : In tx processed) by (apply Hmem; tauto).
  rewrite Hnil in H. destruct H.
Qed.

End CategoryChoice.

(** ** Sort options and search terms *)

Lemma summary_eq (l : list Transaction) :
  summary l
  = mkSummary (sum_amounts (filter isIncome l))
      (sum_amounts (filter (fun tx => negb (isIncome tx)) l))
      (sum_amounts (filter isIncome l)
       - sum_amounts (filter (fun tx => negb (isIncome tx)) l)).
Proof. unfold summary. now rewrite summary_fold. Qed.

Section SortAndSearch.
Context {host : Host}.
Variable now : Z.


Lemma processed_permutation_of_filtered (loading : bool)
    (transactions : list Transaction) (filters : Filters.t) :
  loading = false ->
  Permutation (filter (passesFilters now filters) transactions)
    (processedTransactions now loading transactions filters).
Proof.
  intros ->. unfold processedTransactions. cbn [orb].
  destruct transactions as [|tx l]; [constructor|].
  replace (Z.of_nat (List.length (tx :: l)) =? 0) with false by reflexivity.
  apply sort_perm.
Qed.


(** X10. The search does not see letter case in the term: two terms with
    the same lower-case form give the same processed list. *)
Theorem search_term_case_is_ignored (loading : bool)
    (transactions : list Transaction) (filters : Filters.t)
    (term term' : string) :
  toLowerCase term = toLowerCase term' ->
  processedTransactions now loading transactions
    (spreadWith filters (set_searchTerm term))
  = processedTransactions now loading transactions
      (spreadWith filters (set_searchTerm term')).
Proof.
  intros Hlow.
  assert (Hempty : (term =? "")%string = (term' =? "")%string).
  { assert (Hblank : toLowerCase "" = "")
      by now apply toLowerCase_empty.
    destruct (String.eqb_spec term "") as [E|N],
      (String.eqb_spec term' "") as [E'|N']; try reflexivity; exfalso.
    - apply N'. apply toLowerCase_empty.
      now rewrite <- Hlow, E.
    - apply N. apply toLowerCase_empty.
      now rewrite Hlow, E'. }
  unfold processedTransactions. destruct (loading || _); [reflexivity|].
  cbn [spreadWith Filters.sortOption]. f_equal.
  apply filter_ext. intros tx. unfold passesFilters.
  cbn [spreadWith Filters.type Filters.category Filters.searchTerm
       Filters.dateRange].
  now rewrite Hlow, Hempty.
Qed.

(** X11. The transactions of the store split into the processed list and
    the ones that fail a test: nothing is listed twice, invented or lost.
    While the store is loading the processed list is empty. *)
Theorem processed_and_hidden_split (transactions : list Transaction)
    (filters : Filters.t) :
  Permutation transactions
    (processedTransactions now false transactions filters
     ++ filter (fun tx => negb (passesFilters now filters tx)) transactions)
  /\ processedTransactions now true transactions filters = [].
Proof.
  split; [|reflexivity].
  eapply perm_trans;
    [apply Permutation_sym, (filter_split_perm (passesFilters now filters))|].
  apply Permutation_app_tail.
  now apply processed_permutation_of_filtered.
Qed.

(** X12. When the badge of the filter button shows 0 and the search box
    is empty, no transaction is hidden: the processed list holds every
    transaction of the store. *)
Theorem no_active_filter_hides_nothing (transactions : list Transaction)
    (filters : Filters.t) :
  activeFilterCount filters = 0 -> Filters.searchTerm filters = "" ->
  Permutation transactions
    (processedTransactions now false transactions filters).
Proof.
  intros Hcount Hterm.
  eapply perm_trans; [|now apply processed_permutation_of_filtered].
  replace (filter (passesFilters now filters) transactions)
    with transactions; [apply Permutation_refl|].
  symmetry. apply forallb_filter_id. apply forallb_forall. intros tx _.
  unfold activeFilterCount in Hcount. unfold passesFilters.
  rewrite Hterm. cbn [String.eqb negb andb].
  destruct (negb (FilterType_value (Filters.type filters) =? "all")%string);
    [destruct (Filters.dateRange filters),
       (negb (Filters.category filters =? "all")%string); lia|].
  destruct (negb (Filters.category filters =? "all")%string);
    [destruct (Filters.dateRange filters); lia|].
  destruct (Filters.dateRange filters); try lia. reflexivity.
Qed.

End SortAndSearch.

(** ** Ties under a sort option *)

Section Stability.
Context {A : Type} (cmp : A -> A -> Z) (key : A -> Z).
Hypothesis cmp_zero : forall a b, key a = key b -> cmp a b = 0.

Lemma insert_same_key (x : A) (l : list A) (k : Z) :
  filter (fun a => key a =? k) (Js.insert cmp x l)
  = filter (fun a => key a =? k) (x :: l).
Proof.
  induction l as [|y l IH]; [reflexivity|]. cbn [Js.insert].
  destruct (cmp x y <=? 0) eqn:E; [reflexivity|].
  apply Z.leb_gt in E. cbn [filter] in *. rewrite IH.
  destruct (key x =? k) eqn:Ex; [|reflexivity].
  destruct (key y =? k) eqn:Ey; [|reflexivity].
  apply Z.eqb_eq in Ex, Ey.
  rewrite (cmp_zero x y) in E by congruence. lia.
Qed.

Lemma sort_same_key (l : list A) (k : Z) :
  filter (fun a => key a =? k) (Js.sort cmp l)
  = filter (fun a => key a =? k) l.
Proof.
  induction l as [|x l IH]; [reflexivity|].
  cbn [Js.sort]. rewrite insert_same_key. cbn [filter]. now rewrite IH.
Qed.
End Stability.

(** X13. Sorting keeps ties in the order of the store: the transactions
    with one and the same date, under [newest] and [oldest], or one and
    the same amount, under [highest] and [lowest], follow one another in
    the processed list as they do among the transactions that pass the
    filters. *)
Theorem sort_keeps_ties_in_store_order {host : Host} (now : Z)
    (transactions : list Transaction) (filters : Filters.t) (k : Z) :
  let o := Filters.sortOption filters in
  filter (fun tx => sortKey o tx =? k)
    (processedTransactions now false transactions filters)
  = filter (fun tx => sortKey o tx =? k)
      (filter (passesFilters now filters) transactions).
Proof.
  intros o. unfold processedTransactions. cbn [orb].
  destruct transactions as [|tx l]; [reflexivity|].
  replace (Z.of_nat (List.length (tx :: l)) =? 0) with false by reflexivity.
  apply sort_same_key. intros a b E. subst o.
  destruct (Filters.sortOption filters); simpl in *; lia.
Qed.

(** ** Escaped fields *)

Lemma countQuotes_double_quotes (s : string) :
  countQuotes (Js.double_quotes s) = (2 * countQuotes s)%nat.
Proof.
  induction s as [|c s IH]; [reflexivity|]. cbn [Js.double_quotes].
  destruct (Ascii.eqb c Js.dquote) eqn:E; cbn [countQuotes];
    rewrite ?E, ?Ascii.eqb_refl, IH; lia.
Qed.

Lemma countQuotes_append (s1 s2 : string) :
  countQuotes (s1 ++ s2) = (countQuotes s1 + countQuotes s2)%nat.
Proof.
  induction s1 as [|c s1 IH]; [reflexivity|]. simpl. rewrite IH. lia.
Qed.

(** X14. Escaping a text for a CSV field loses nothing: the text is read
    back from its escaped form, so texts that differ have escaped forms
    that differ. *)
Theorem csv_escaping_is_lossless (s s' : string) :
  unescape (Js.double_quotes s) = s
  /\ (Js.double_quotes s = Js.double_quotes s' -> s = s').
Proof.
  split; [apply unescape_double_quotes|].
  intros E. rewrite <- (unescape_double_quotes s), E.
  apply unescape_double_quotes.
Qed.

(** X15. Every CSV row holds an even number of double quotes apart from
    those of the formatted date and amount, so no quote of a category or
    description is taken for the end of its field: the row has the four
    quotes that enclose the two fields and two for each double quote of
    the category and of the description. *)
Theorem csv_row_quotes_are_balanced {host : Host} (tx : Transaction) :
  countQuotes (csvRow tx)
  = (countQuotes (format (parseISO (date tx)) "yyyy-MM-dd")
     + countQuotes (Js.number_toString (amount tx))
     + 4
     + 2 * countQuotes (category tx)
     + 2 * match description tx with
           | Some d => countQuotes d
           | None => 0
           end)%nat.
Proof.
  unfold csvRow. rewrite !countQuotes_append.
  rewrite countQuotes_double_quotes.
  destruct (description tx) as [d|];
    [rewrite countQuotes_double_quotes|];
    destruct (type tx =? "income")%string; simpl; lia.
Qed.

(** ** Deleting a transaction *)

Section DeletionFacts.
Import Deletion.
Context {Exn : Type}.
Variable deleteTransaction : string -> option Exn.

(** X16. [handleDelete] never lets a rejection escape.  It calls the
    store once, with the id it was given.  When the store resolves, both
    dialogs are closed and the success toast is shown; when it rejects,
    the two state cells are left as they were and the error is shown as
    a toast and written to the console. *)
Theorem handleDelete_outcomes (id_ : string) (st : State Exn) :
  handleDelete deleteTransaction id_ st
  = match deleteTransaction id_ with
    | None =>
        (mkState (log st ++ [DeleteCall id_; ToastSuccess "ลบรายการสำเร็จ"])
           (mkDialogs None None),
         Normal tt)
    | Some e =>
        (mkState
           (log st ++ [DeleteCall id_;
                       ToastError "เกิดข้อผิดพลาดในการลบรายการ";
                       ConsoleError "Error deleting transaction:" e])
           (dialogs st),
         Normal tt)
    end.
Proof.
  unfold handleDelete, await_deleteTransaction.
  destruct (deleteTransaction id_) as [e|];
    cbv [try_catch bind emit ret throw setDeleteId setSelectedTransaction
         log dialogs deleteId selectedTransaction];
    rewrite <- !app_assoc; reflexivity.
Qed.

End DeletionFacts.

(** ** Thai dates *)

Lemma fourDigitYears_checked :
  forallb shortYearIsLastTwoDigits fourDigitYears = true.
Proof. vm_compute. reflexivity. Qed.

(** X17. For the years 457 to 9456, whose Buddhist-era year has four
    digits, the short date ends with the last two digits of that year;
    it starts with the day and the short month name. *)
Theorem formatThaiShortDate_two_digit_year
    (getDate getMonth getFullYear : Z -> Z) (d : Z) :
  457 <= getFullYear d <= 9456 ->
  formatThaiShortDate getDate getMonth getFullYear d
  = (Js.number_toString (getDate d) ++ " "
     ++ elementText thaiMonthsShort (getMonth d) ++ " "
     ++ twoDigits ((getFullYear d + 543) mod 100))%string.
Proof.
  intros Hy. unfold formatThaiShortDate. do 4 f_equal.
  pose proof fourDigitYears_checked as Hall.
  rewrite forallb_forall in Hall.
  apply String.eqb_eq. apply (Hall (getFullYear d + 543)).
  unfold fourDigitYears. apply in_map_iff.
  exists (Z.to_nat (getFullYear d + 543 - 1000)). split; [lia|].
  apply in_seq. lia.
Qed.

(** ** Filters and what they entail *)

Lemma NoDup_constant {A : Type} (l : list A) (a : A) :
  NoDup l -> (forall x, In x l -> x = a) -> (List.length l <= 1)%nat.
Proof.
  intros Hnd Hall. destruct l as [|x [|y l]]; simpl; try lia.
  exfalso. inversion Hnd as [|? ? Hx _]; subst. apply Hx.
  rewrite (Hall x), (Hall y); simpl; auto.
Qed.

Section FilterConsequences.
Context {host : Host}.
Variable now : Z.

Lemma passesFilters_type (filters : Filters.t) (tx : Transaction) :
  passesFilters now filters tx = true -> typeOk filters tx.
Proof.
  intros H. apply type_test. cbv zeta. unfold passesFilters in H.
  cbv zeta in H.
  destruct (negb (FilterType_value (Filters.type filters) =? "all")%string
            && _); [discriminate|reflexivity].
Qed.

Lemma passesFilters_today (filters : Filters.t) (tx : Transaction) :
  Filters.dateRange filters = range_today ->
  passesFilters now filters tx = true ->
  isToday now (parseISO (date tx)) = true.
Proof.
  intros Hr H. unfold passesFilters in H. cbv zeta in H. rewrite Hr in H.
  destruct (negb (FilterType_value (Filters.type filters) =? "all")%string
            && _); [discriminate|].
  destruct (negb (Filters.category filters =? "all")%string && _);
    [discriminate|].
  destruct (negb (Filters.searchTerm filters =? "")%string && _);
    [discriminate|exact H].
Qed.

Lemma processed_passes (loading : bool) (transactions : list Transaction)
    (filters : Filters.t) (tx : Transaction) :
  In tx (processedTransactions now loading transactions filters) ->
  In tx transactions /\ passesFilters now filters tx = true.
Proof.
  unfold processedTransactions.
  destruct (loading || _); [intros []|].
  rewrite sort_In, filter_In. tauto.
Qed.

(** X18. The filter and the grouping read the clock each on its own.
    Under the date range today, as long as every date that is today for
    the clock of the filter is still today for the clock of the grouping,
    every group shown is the group of today: each page has one group at
    most, and its title is the title of today. *)
Theorem today_filter_shows_one_group (groupNow : Z) (loading : bool)
    (transactions : list Transaction) (filters : Filters.t) (p : Z) :
  Filters.dateRange filters = range_today ->
  (forall d, isToday now d = true -> isToday groupNow d = true) ->
  let shown :=
    groups (paginatedData groupNow
              (processedTransactions now loading transactions filters) p) in
  (forall g, In g shown -> TransactionGroup.title g = "วันนี้")
  /\ (List.length shown <= 1)%nat.
Proof.
  intros Hr Hday shown.
  set (processed := processedTransactions now loading transactions filters)
    in *.
  assert (Eshown : shown = groupPage groupNow (paginatedTxs processed p))
    by apply visibleRows_page.
  destruct (groupPage_buckets groupNow (paginatedTxs processed p))
    as (Hnd & _ & Hb & _).
  rewrite <- Eshown in Hnd, Hb.
  assert (Htitle : forall g, In g shown ->
                     TransactionGroup.title g = "วันนี้").
  { intros g Hg. destruct (Hb g Hg) as [E (tx0 & rest & Hhd & _)].
    assert (Hin : In tx0 (TransactionGroup.transactions g))
      by (rewrite Hhd; now left).
    rewrite E in Hin. unfold bucket in Hin. apply filter_In in Hin.
    destruct Hin as [Hpage Ht]. apply String.eqb_eq in Ht.
    rewrite <- Ht. unfold titleOf, groupTitle.
    unfold paginatedTxs in Hpage. apply slice_incl in Hpage.
    apply processed_passes in Hpage. destruct Hpage as [_ Hpass].
    now rewrite (Hday _ (passesFilters_today _ _ Hr Hpass)). }
  split; [exact Htitle|].
  rewrite <- (length_map TransactionGroup.title).
  apply (NoDup_constant _ "วันนี้" Hnd).
  intros t Ht. apply in_map_iff in Ht. destruct Ht as (g & <- & Hg).
  now apply Htitle.
Qed.

Lemma sum_amounts_none (f : Transaction -> bool) (l : list Transaction) :
  (forall tx, In tx l -> f tx = false) -> sum_amounts (filter f l) = 0.
Proof.
  intros H. induction l as [|tx l IH]; [reflexivity|]. simpl.
  rewrite (H tx (or_introl eq_refl)). apply IH.
  intros tx' Hin. apply H. now right.
Qed.

(** X19. The totals follow the type filter: under the income filter the
    expense total is 0 and the balance is the income total; under the
    expense filter the income total is 0 and the balance is the expense
    total negated. *)
Theorem type_filter_zeroes_other_total (loading : bool)
    (transactions : list Transaction) (filters : Filters.t) :
  let totals :=
    summary (processedTransactions now loading transactions filters) in
  (Filters.type filters = type_income ->
   totalExpense totals = 0 /\ balance totals = totalIncome totals)
  /\ (Filters.type filters = type_expense ->
      totalIncome totals = 0 /\ balance totals = - totalExpense totals).
Proof.
  intros totals. subst totals. rewrite summary_eq.
  cbn [totalIncome totalExpense balance].
  set (processed := processedTransactions now loading transactions filters).
  assert (Htype : forall tx, In tx processed -> typeOk filters tx).
  { intros tx Hin. apply processed_passes in Hin.
    now apply passesFilters_type. }
  split; intros Hf.
  - rewrite (sum_amounts_none (fun tx => negb (isIncome tx)));
      [lia|].
    intros tx Hin. destruct (Htype tx Hin) as [E|E];
      [congruence|]. rewrite Hf in E. simpl in E.
    unfold isIncome. rewrite E. reflexivity.
  - rewrite (sum_amounts_none isIncome); [lia|].
    intros tx Hin. destruct (Htype tx Hin) as [E|E];
      [congruence|]. rewrite Hf in E. simpl in E.
    unfold isIncome. rewrite E. reflexivity.
Qed.

Variable transactions : list Transaction.

Lemma all_in_uniqueCategories : In "all" (uniqueCategories transactions).
Proof.
  unfold uniqueCategories.
  destruct (Z.of_nat (List.length transactions) =? 0); now left.
Qed.

(** X20. Through the controls of the view the date range never becomes
    the custom one, and the category filter is always the entry for all
    categories or the category of some transaction of the store. *)
Theorem reachable_filters_are_offered (s : View.t) :
  reachable now transactions s ->
  Filters.dateRange (View.filters s) <> range_custom
  /\ (Filters.category (View.filters s) = "all"
      \/ exists tx, In tx transactions
                    /\ category tx = Filters.category (View.filters s)).
Proof.
  intros Hreach.
  induction Hreach as [|s s' _ [IH1 IH2] Hstep].
  - split; [discriminate|now left].
  - destruct Hstep as [u s Hoff|s|s _ _|s _ _|s page _ _];
      try (split; assumption).
    + destruct u as [v|c|r|o|t]; simpl in *; try (split; assumption).
      * split; [exact IH1|]. now apply uniqueCategories_cases.
      * split; [|exact IH2].
        destruct Hoff as [<-|[<-|[<-|[<-|[]]]]]; discriminate.
    + split; [discriminate|now left].
Qed.

End FilterConsequences.

(** X21. The two arrows undo each other inside the pages: going to the
    next page and back, or to the previous page and forth, returns to the
    same view. *)
Theorem arrows_undo_each_other (totalPages_ : Z) (s : View.t) :
  (1 <= View.currentPage s < totalPages_ ->
   previousPage (nextPage totalPages_ s) = s)
  /\ (1 < View.currentPage s <= totalPages_ ->
      nextPage totalPages_ (previousPage s) = s).
Proof.
  destruct s as [f p]. unfold previousPage, nextPage. cbn [View.filters
    View.currentPage]. split; intros Hp; f_equal; lia.
Qed.

(** ** Sample runs *)

Example slice_second_page :
  Js.slice [1; 2; 3; 4; 5; 6; 7; 8; 9; 10; 11; 12] 10 20 = [11; 12].
Proof. reflexivity. Qed.

Example slice_from_the_end : Js.slice [1; 2; 3] (-2) 10 = [2; 3].
Proof. reflexivity. Qed.

Example sort_keeps_ties_in_order :
  Js.sort (fun a b => fst a - fst b) [(2, "x"); (1, "y"); (2, "z"); (1, "w")]
  = [(1, "y"); (1, "w"); (2, "x"); (2, "z")].
Proof. reflexivity. Qed.

Example ceil_div_samples :
  (Js.ceil_div 1 10, Js.ceil_div 10 10, Js.ceil_div 11 10) = (1, 1, 2).
Proof. reflexivity. Qed.

Example includes_samples :
  (Js.includes "salary" "ala", Js.includes "salary" "", Js.includes "" "a")
  = (true, true, false).
Proof. reflexivity. Qed.

Example titles_on_the_clock_day :
  map (fun d => groupTitle (host := Utc.host) Utc.clock (Utc.parse d))
    ["2025-03-08"; "2025-03-07"; "2025-03-03"; "2025-03-02"; "2025-01-05"]
  = ["วันนี้"; "เมื่อวาน"; "สัปดาห์นี้"; "เดือนนี้"; "January 2025"].
Proof. vm_compute. reflexivity. Qed.

Example oldest_first_page_and_rows :
  let processed :=
    processedTransactions (host := Utc.host) Utc.clock false januaryAndMarch
      (noFilter oldest) in
  map id (paginatedTxs processed 1) = ["a"; "b"]
  /\ map id (visibleRows (host := Utc.host) Utc.clock processed 1)
     = ["b"; "a"].
Proof. vm_compute. split; reflexivity. Qed.

Example eleven_rows_ten_shown :
  let processed :=
    processedTransactions (host := Utc.host) Utc.clock false
      (sameDayTransactions 11) (noFilter newest) in
  List.length processed = 11%nat
  /\ List.length (visibleRows (host := Utc.host) Utc.clock processed 1)
     = 10%nat
  /\ totalPages (paginatedData (host := Utc.host) Utc.clock processed 1) = 2.
Proof. vm_compute. repeat split. Qed.

Example loading_shows_nothing :
  processedTransactions (host := Utc.host) Utc.clock true januaryAndMarch
    (noFilter newest) = [].
Proof. reflexivity. Qed.

Example summary_sample :
  summary [Utc.tx "a" "income" "salary" "2025-01-05" 100;
           Utc.tx "b" "expense" "food" "2025-03-08" 40;
           Utc.tx "c" "transfer" "bank" "2025-03-08" 5]
  = mkSummary 100 45 55.
Proof. reflexivity. Qed.

Example csv_row_with_quotes :
  csvRow (host := Utc.host)
    (mkTransaction "q" "income" "gift"
       (Some ("a " ++ Js.dquote_str ++ "big" ++ Js.dquote_str
              ++ " one")%string)
       "2025-03-08" 250)
  = ("2025-03-08,รายรับ," ++ quoted "gift" ++ ","
     ++ quoted ("a " ++ Js.dquote_str ++ Js.dquote_str ++ "big"
                ++ Js.dquote_str ++ Js.dquote_str ++ " one")%string
     ++ ",250")%string.
Proof. vm_compute. reflexivity. Qed.

Example route_serves_rows :
  CategoriesRoute.run servingWorld tt
  = ([CategoriesRoute.CreateClient;
      CategoriesRoute.RunQuery allCategoriesByName],
     CategoriesRoute.Normal
       (CategoriesRoute.mkResponse (CategoriesRoute.Rows ["food"]) 200)).
Proof. reflexivity. Qed.

Example route_without_client :
  CategoriesRoute.run noClientWorld tt
  = ([CategoriesRoute.CreateClient; logged tt],
     CategoriesRoute.Normal errorResponse).
Proof. reflexivity. Qed.

Example page_buttons_samples :
  (pageButtons 3 2, pageButtons 12 1, pageButtons 12 6, pageButtons 12 11,
   pageButtons 0 1)
  = ([1; 2; 3], [1; 2; 3; 4; 5], [4; 5; 6; 7; 8], [8; 9; 10; 11; 12], []).
Proof. reflexivity. Qed.

Example unique_categories_sample :
  uniqueCategories
    [Utc.tx "a" "expense" "food" "2025-03-08" 40;
     Utc.tx "b" "income" "salary" "2025-03-01" 100;
     Utc.tx "c" "expense" "food" "2025-02-11" 25]
  = ["all"; "food"; "salary"].
Proof. reflexivity. Qed.

Example thai_dates_sample :
  (formatThaiMonth utcDate utcMonth utcFullYear Utc.clock,
   formatThaiShortDate utcDate utcMonth utcFullYear Utc.clock)
  = ("8 มีนาคม 2568", "8 มี.ค. 68").
Proof. vm_compute. reflexivity. Qed.

Example delete_rejected_sample :
  Deletion.handleDelete (fun _ => Some "offline") "t1"
    (Deletion.mkState [] (Deletion.mkDialogs (Some "t1") None))
  = (Deletion.mkState
       [Deletion.DeleteCall "t1";
        Deletion.ToastError "เกิดข้อผิดพลาดในการลบรายการ";
        Deletion.ConsoleError "Error deleting transaction:" "offline"]
       (Deletion.mkDialogs (Some "t1") None),
     Deletion.Normal tt).
Proof. reflexivity. Qed.

(** ** The theorems at sample inputs *)

Lemma pipeline_filter_sort_paginate_group_witness :
  In marchGroup
    (groups (paginatedData (host := Utc.host) Utc.clock
               (Js.sort (sortComparator (host := Utc.host) oldest)
                  (filter (passesFilters (host := Utc.host) Utc.clock
                             (noFilter oldest)) januaryAndMarch)) 1))
  /\ TransactionGroup.transactions marchGroup
     = bucket (titleOf (host := Utc.host) Utc.clock)
         (Js.slice
            (Js.sort (sortComparator (host := Utc.host) oldest)
               (filter (passesFilters (host := Utc.host) Utc.clock
                          (noFilter oldest)) januaryAndMarch))
            ((1 - 1) * 10) ((1 - 1) * 10 + 10))
         (TransactionGroup.title marchGroup).
Proof.
  assert (H : In marchGroup
    (groups (paginatedData (host := Utc.host) Utc.clock
               (Js.sort (sortComparator (host := Utc.host) oldest)
                  (filter (passesFilters (host := Utc.host) Utc.clock
                             (noFilter oldest)) januaryAndMarch)) 1)))
    by (vm_compute; left; reflexivity).
  split; [exact H|].
  exact (proj2 (proj2 (proj2
           (pipeline_filter_sort_paginate_group (host := Utc.host) Utc.clock
              januaryAndMarch (noFilter oldest) 1))) marchGroup H).
Defined.

Lemma exportCSV_processed_rows_witness :
  In (Utc.tx "1" "expense" "food" "2025-03-08" 1)
    (visibleRows (host := Utc.host) Utc.clock (sameDayTransactions 11) 2)
  /\ In (Utc.tx "1" "expense" "food" "2025-03-08" 1) (sameDayTransactions 11).
Proof.
  assert (H : In (Utc.tx "1" "expense" "food" "2025-03-08" 1)
                (visibleRows (host := Utc.host) Utc.clock
                   (sameDayTransactions 11) 2))
    by (vm_compute; left; reflexivity).
  split; [exact H|].
  exact (proj1 (proj2 (exportCSV_processed_rows (host := Utc.host) Utc.clock
                         (sameDayTransactions 11) 2)) _ H).
Defined.

Lemma filtering_conjunction_witness :
  In (Utc.tx "a" "income" "salary" "2025-03-01" 100)
    (processedTransactions (host := Utc.host) Utc.clock false
       [Utc.tx "a" "income" "salary" "2025-03-01" 100]
       (Filters.mk type_income "all" range_month newest "SAL"))
  <-> In (Utc.tx "a" "income" "salary" "2025-03-01" 100)
        [Utc.tx "a" "income" "salary" "2025-03-01" 100]
      /\ typeOk (Filters.mk type_income "all" range_month newest "SAL")
           (Utc.tx "a" "income" "salary" "2025-03-01" 100)
      /\ categoryOk (Filters.mk type_income "all" range_month newest "SAL")
           (Utc.tx "a" "income" "salary" "2025-03-01" 100)
      /\ searchOk (host := Utc.host)
           (Filters.mk type_income "all" range_month newest "SAL")
           (Utc.tx "a" "income" "salary" "2025-03-01" 100)
      /\ (Filters.dateRange
            (Filters.mk type_income "all" range_month newest "SAL")
          = range_custom
          \/ dateOk (host := Utc.host) Utc.clock
               (Utc.tx "a" "income" "salary" "2025-03-01" 100)
               (Filters.dateRange
                  (Filters.mk type_income "all" range_month newest "SAL"))).
Proof.
  exact (proj1 (filtering_conjunction (host := Utc.host) Utc.clock
                  [Utc.tx "a" "income" "salary" "2025-03-01" 100]
                  (Filters.mk type_income "all" range_month newest "SAL")
                  (Utc.tx "a" "income" "salary" "2025-03-01" 100))).
Defined.

Lemma pagination_partition_witness :
  0 < Z.of_nat (List.length (sameDayTransactions 12))
  /\ 1 <= 2
  /\ Z.of_nat (List.length (paginatedTxs (sameDayTransactions 12) 2)) = 2
  /\ totalItems (paginatedData (host := Utc.host) Utc.clock
                   (sameDayTransactions 12) 2) = 12.
Proof.
  assert (Hn : 0 < Z.of_nat (List.length (sameDayTransactions 12)))
    by (vm_compute; reflexivity).
  assert (Hp : 1 <= 2) by lia.
  destruct (pagination_partition (host := Utc.host) Utc.clock
              (sameDayTransactions 12) 2 Hn Hp)
    as (Hlen & _ & _ & _ & _ & Hitems & _ & _).
  split; [exact Hn|]. split; [exact Hp|]. split; [exact Hlen|exact Hitems].
Defined.

Lemma date_bucketing_partition_witness :
  In (Utc.tx "b" "expense" "food" "2025-03-08" 40) januaryAndMarch
  /\ exists g,
       In g (groupPage (host := Utc.host) Utc.clock januaryAndMarch)
       /\ TransactionGroup.title g = "วันนี้"
       /\ In (Utc.tx "b" "expense" "food" "2025-03-08" 40)
            (TransactionGroup.transactions g).
Proof.
  assert (H : In (Utc.tx "b" "expense" "food" "2025-03-08" 40)
                januaryAndMarch) by (right; left; reflexivity).
  split; [exact H|].
  destruct (date_bucketing_partition (host := Utc.host) Utc.clock
              januaryAndMarch) as (_ & Hb & _).
  exact (proj2 (Hb _ H)).
Defined.

Lemma GET_pass_through_witness :
  CategoriesRoute.failure servingWorld = None
  /\ CategoriesRoute.run servingWorld tt
     = ([CategoriesRoute.CreateClient;
         CategoriesRoute.RunQuery allCategoriesByName],
        CategoriesRoute.Normal
          (CategoriesRoute.mkResponse (CategoriesRoute.Rows ["food"]) 200)).
Proof.
  assert (H : CategoriesRoute.failure servingWorld = None) by reflexivity.
  split; [exact H|].
  destruct (GET_pass_through servingWorld tt) as (_ & _ & Hok).
  destruct (Hok H) as (r & Hr & Hrun).
  injection Hr as <-. exact Hrun.
Defined.


Lemma GET_error_atomicity_witness :
  CategoriesRoute.failure noClientWorld = Some tt
  /\ exists log resp,
       CategoriesRoute.run noClientWorld tt = (log, CategoriesRoute.Normal resp)
       /\ resp = errorResponse
       /\ last log CategoriesRoute.CreateClient = logged tt.
Proof.
  assert (H : CategoriesRoute.failure noClientWorld = Some tt)
    by reflexivity.
  split; [exact H|].
  destruct (GET_error_atomicity noClientWorld tt)
    as (log & resp & Hrun & _ & Hfail).
  exists log, resp. split; [exact Hrun|]. exact (Hfail tt H).
Defined.

Lemma page_buttons_in_range_witness :
  1 <= 7 /\ In 5 (pageButtons 7 9) /\ 1 <= 5 <= 7.
Proof.
  assert (Htp : 1 <= 7) by lia.
  assert (Hin : In 5 (pageButtons 7 9))
    by (vm_compute; right; right; left; reflexivity).
  split; [exact Htp|]. split; [exact Hin|].
  exact (page_buttons_in_range 7 9 5 Htp Hin).
Defined.

Lemma page_buttons_window_witness :
  1 <= 6 <= 12
  /\ exists first,
       pageButtons 12 6
       = map (fun i => first + Z.of_nat i) (seq 0 (Z.to_nat (Z.min 5 12)))
       /\ first <= 6 < first + Z.min 5 12.
Proof.
  assert (Hp : 1 <= 6 <= 12) by lia.
  split; [exact Hp|]. exact (page_buttons_window 12 6 Hp).
Defined.

Lemma shown_range_counts_rows_witness :
  0 < Z.of_nat (List.length (sameDayTransactions 12))
  /\ 1 <= 2 <= totalPages (paginatedData (host := Utc.host) Utc.clock
                             (sameDayTransactions 12) 2)
  /\ Z.of_nat (List.length (visibleRows (host := Utc.host) Utc.clock
                              (sameDayTransactions 12) 2))
     = 12 - 11 + 1.
Proof.
  assert (Hn : 0 < Z.of_nat (List.length (sameDayTransactions 12)))
    by (vm_compute; reflexivity).
  assert (Hp : 1 <= 2 <= totalPages (paginatedData (host := Utc.host)
                                       Utc.clock (sameDayTransactions 12) 2))
    by (vm_compute; split; discriminate).
  split; [exact Hn|]. split; [exact Hp|].
  exact (proj1 (shown_range_counts_rows (host := Utc.host) Utc.clock
                  (sameDayTransactions 12) 2 Hn Hp)).
Defined.

Lemma page_past_the_end_is_empty_witness :
  0 < Z.of_nat (List.length (sameDayTransactions 10))
  /\ totalPages (paginatedData (host := Utc.host) Utc.clock
                   (sameDayTransactions 10) 2) < 2
  /\ visibleRows (host := Utc.host) Utc.clock (sameDayTransactions 10) 2 = [].
Proof.
  assert (Hn : 0 < Z.of_nat (List.length (sameDayTransactions 10)))
    by (vm_compute; reflexivity).
  assert (Hp : totalPages (paginatedData (host := Utc.host) Utc.clock
                             (sameDayTransactions 10) 2) < 2)
    by (vm_compute; reflexivity).
  split; [exact Hn|]. split; [exact Hp|].
  exact (proj1 (proj2 (page_past_the_end_is_empty (host := Utc.host)
                         Utc.clock (sameDayTransactions 10) 2 Hn Hp))).
Defined.

Lemma current_page_stays_in_range_witness :
  reachable (host := Utc.host) Utc.clock (sameDayTransactions 12)
    (View.mk initialFilters 2)
  /\ 1 <= 2
  /\ (2 = 1
      \/ 2 <= totalPagesOf (host := Utc.host) Utc.clock
                (sameDayTransactions 12) (View.mk initialFilters 2)).
Proof.
  assert (Hshown : paginationShown (host := Utc.host) Utc.clock
                     (sameDayTransactions 12) initialView)
    by (split; vm_compute; [repeat constructor|reflexivity]).
  assert (Hlt : View.currentPage initialView
                < totalPagesOf (host := Utc.host) Utc.clock
                    (sameDayTransactions 12) initialView)
    by (vm_compute; reflexivity).
  assert (Hreach : reachable (host := Utc.host) Utc.clock
                     (sameDayTransactions 12) (View.mk initialFilters 2))
    by exact (reachable_step Utc.clock (sameDayTransactions 12) _ _
                (reachable_initial Utc.clock (sameDayTransactions 12))
                (step_next Utc.clock (sameDayTransactions 12) initialView
                   Hshown Hlt)).
  split; [exact Hreach|].
  destruct (current_page_stays_in_range (host := Utc.host) Utc.clock
              (sameDayTransactions 12) _ Hreach) as (H1 & H2 & _).
  split; [exact H1|exact H2].
Defined.

Lemma offered_category_lists_its_transactions_witness :
  In "food" (uniqueCategories januaryAndMarch)
  /\ "food" <> "all"
  /\ processedTransactions (host := Utc.host) Utc.clock false januaryAndMarch
       (Filters.mk type_all "food" range_all newest "") <> [].
Proof.
  assert (Hin : In "food" (uniqueCategories januaryAndMarch))
    by (vm_compute; right; right; left; reflexivity).
  assert (Hc : "food" <> "all") by discriminate.
  split; [exact Hin|]. split; [exact Hc|].
  exact (proj1 (offered_category_lists_its_transactions (host := Utc.host)
                  Utc.clock januaryAndMarch "food" newest Hin Hc)).
Defined.

Lemma search_term_case_is_ignored_witness :
  toLowerCase (Host := Utc.host) "SAL" = toLowerCase (Host := Utc.host) "sal"
  /\ processedTransactions (host := Utc.host) Utc.clock false januaryAndMarch
       (spreadWith (noFilter newest) (set_searchTerm "SAL"))
     = processedTransactions (host := Utc.host) Utc.clock false
         januaryAndMarch (spreadWith (noFilter newest) (set_searchTerm "sal")).
Proof.
  assert (H : toLowerCase (Host := Utc.host) "SAL"
              = toLowerCase (Host := Utc.host) "sal") by reflexivity.
  split; [exact H|].
  exact (search_term_case_is_ignored (host := Utc.host) Utc.clock false
           januaryAndMarch (noFilter newest) "SAL" "sal" H).
Defined.

Lemma no_active_filter_hides_nothing_witness :
  activeFilterCount (noFilter oldest) = 0
  /\ Filters.searchTerm (noFilter oldest) = ""
  /\ Permutation januaryAndMarch
       (processedTransactions (host := Utc.host) Utc.clock false
          januaryAndMarch (noFilter oldest)).
Proof.
  assert (Hc : activeFilterCount (noFilter oldest) = 0) by reflexivity.
  assert (Ht : Filters.searchTerm (noFilter oldest) = "") by reflexivity.
  split; [exact Hc|]. split; [exact Ht|].
  exact (no_active_filter_hides_nothing (host := Utc.host) Utc.clock
           januaryAndMarch (noFilter oldest) Hc Ht).
Defined.

Lemma csv_escaping_is_lossless_witness :
  Js.double_quotes "rent" = Js.double_quotes "rent" /\ "rent" = "rent".
Proof.
  assert (H : Js.double_quotes "rent" = Js.double_quotes "rent")
    by reflexivity.
  split; [exact H|].
  exact (proj2 (csv_escaping_is_lossless "rent" "rent") H).
Defined.

Lemma formatThaiShortDate_two_digit_year_witness :
  457 <= utcFullYear Utc.clock <= 9456
  /\ formatThaiShortDate utcDate utcMonth utcFullYear Utc.clock
     = "8 มี.ค. 68".
Proof.
  assert (H : 457 <= utcFullYear Utc.clock <= 9456)
    by (vm_compute; split; discriminate).
  split; [exact H|].
  exact (formatThaiShortDate_two_digit_year utcDate utcMonth utcFullYear
           Utc.clock H).
Defined.

Lemma today_filter_shows_one_group_witness :
  Filters.dateRange (Filters.mk type_all "all" range_today newest "")
  = range_today
  /\ (forall d, isToday (Host := Utc.host) Utc.clock d = true ->
                isToday (Host := Utc.host) (Utc.clock + 3600000) d = true)
  /\ (List.length
        (groups (paginatedData (host := Utc.host) (Utc.clock + 3600000)
                   (processedTransactions (host := Utc.host) Utc.clock false
                      januaryAndMarch
                      (Filters.mk type_all "all" range_today newest "")) 1))
      <= 1)%nat.
Proof.
  assert (H : Filters.dateRange
                (Filters.mk type_all "all" range_today newest "")
              = range_today) by reflexivity.
  assert (Hday : forall d,
             isToday (Host := Utc.host) Utc.clock d = true ->
             isToday (Host := Utc.host) (Utc.clock + 3600000) d = true)
    by (intros d Hd; exact Hd).
  split; [exact H|]. split; [exact Hday|].
  exact (proj2 (today_filter_shows_one_group (host := Utc.host) Utc.clock
                  (Utc.clock + 3600000) false januaryAndMarch
                  (Filters.mk type_all "all" range_today newest "") 1
                  H Hday)).
Defined.

Lemma type_filter_zeroes_other_total_witness :
  Filters.type (Filters.mk type_income "all" range_all newest "")
  = type_income
  /\ totalExpense
       (summary (processedTransactions (host := Utc.host) Utc.clock false
                   januaryAndMarch
                   (Filters.mk type_income "all" range_all newest ""))) = 0.
Proof.
  assert (H : Filters.type (Filters.mk type_income "all" range_all newest "")
              = type_income) by reflexivity.
  split; [exact H|].
  exact (proj1 (proj1 (type_filter_zeroes_other_total (host := Utc.host)
                         Utc.clock false januaryAndMarch
                         (Filters.mk type_income "all" range_all newest ""))
                  H)).
Defined.

Lemma reachable_filters_are_offered_witness :
  reachable (host := Utc.host) Utc.clock januaryAndMarch
    (updateFilter (set_category "food") initialView)
  /\ Filters.dateRange
       (View.filters (updateFilter (set_category "food") initialView))
     <> range_custom.
Proof.
  assert (Hoff : offered januaryAndMarch (set_category "food"))
    by (vm_compute; right; right; left; reflexivity).
  assert (Hreach : reachable (host := Utc.host) Utc.clock januaryAndMarch
                     (updateFilter (set_category "food") initialView))
    by exact (reachable_step Utc.clock januaryAndMarch _ _
                (reachable_initial Utc.clock januaryAndMarch)
                (step_update Utc.clock januaryAndMarch _ initialView Hoff)).
  split; [exact Hreach|].
  exact (proj1 (reachable_filters_are_offered (host := Utc.host) Utc.clock
                  januaryAndMarch _ Hreach)).
Defined.

Lemma arrows_undo_each_other_witness :
  1 <= View.currentPage (View.mk initialFilters 3) < 5
  /\ previousPage (nextPage 5 (View.mk initialFilters 3))
     = View.mk initialFilters 3.
Proof.
  assert (H : 1 <= View.currentPage (View.mk initialFilters 3) < 5)
    by (simpl; lia).
  split; [exact H|].
  exact (proj1 (arrows_undo_each_other 5 (View.mk initialFilters 3)) H).
Defined.
